(** * scripts/embeddings.py: the embedding server, embedded in Rocq

    The script reads one JSON request per line on standard input, loads
    and caches a sentence-transformers model, encodes the text and prints
    one JSON response per line.  The three libraries it drives (json,
    sentence_transformers with torch, numpy) are outside the repository:
    they appear below as one interface, [Library], and every statement is
    proved for all its implementations, a test double included.

    Python objects are values of [json] (what [json.loads] yields and
    [json.dumps] accepts: None, bool, int, float, str, list, dict) or of
    [value] (the other objects the script handles: tuples, loaded models,
    numpy arrays, other library objects).  A float is a [spec_float], the
    Standard Library's specification of IEEE 754 numbers; a Python float
    and the items of a numpy array are binary64 numbers, or binary32
    numbers widened to binary64, which is exact.

    A [string] stands for a Python [str] over the code points below 256,
    one [ascii] per code point.

    Only subclasses of [Exception] are modelled: [KeyboardInterrupt], an
    asynchronous signal, is not. *)

From Stdlib Require Import ZArith String Ascii List Bool Lia.
From Stdlib Require Import Floats.SpecFloat.
From stdpp Require Import base option list gmap strings countable.

#[local] Set Warnings "-register-all".
#[local] Open Scope string_scope.

(** ** Exceptions and results *)

Inductive exn_class :=
| JSONDecodeError
| TypeError
| AttributeError
| KeyError
| OtherException (name : string).

(** [exn_str e] is what [str(e)] returns. *)
Record exn := Exn { exn_cls : exn_class; exn_str : string }.

Inductive result (A : Type) :=
| Ok (a : A)
| Raise (e : exn).
Arguments Ok {A} a.
Arguments Raise {A} e.

Definition is_Ok {A} (r : result A) : bool :=
  match r with Ok _ => true | Raise _ => false end.

Definition is_JSONDecodeError (e : exn) : bool :=
  match exn_cls e with JSONDecodeError => true | _ => false end.

(** ** Plain Python data *)

Inductive json :=
| JNone
| JBool (b : bool)
| JInt (z : Z)
| JFloat (x : spec_float)
| JStr (s : string)
| JList (l : list json)
| JDict (d : gmap string json).

(** A loaded [SentenceTransformer] instance, named by its identity. *)
Definition handle := N.

(** ** numpy arrays

    An array of a numeric dtype, of any number of dimensions: an item
    ([NdItem], a zero-dimensional array) or the list of its sub-arrays
    along the first axis.  Items of the bool and integer dtypes are
    integers, items of the float dtypes are floats. *)

Inductive scalar :=
| NpBool (b : bool)
| NpInt (z : Z)
| NpFloat (x : spec_float).

Inductive ndarray :=
| NdItem (x : scalar)
| NdAxis (l : list ndarray).

(** ** The other objects *)

Inductive value :=
| Plain (j : json)
| Tuple (l : list value)
| Model (h : handle)
| Ndarray (a : ndarray)
| Object (cls : string) (tolist : option json).
(** [Object cls tl] is an instance of any other class [cls], a
    [torch.Tensor] for one; [tl] is what its [tolist()] method returns,
    [None] when it has no such method. *)

Abbreviation None_ := (Plain JNone).
Abbreviation Str s := (Plain (JStr s)).

Definition is_None (v : value) : bool :=
  match v with Plain JNone => true | _ => false end.

Definition json_type_name (j : json) : string :=
  match j with
  | JNone => "NoneType"
  | JBool _ => "bool"
  | JInt _ => "int"
  | JFloat _ => "float"
  | JStr _ => "str"
  | JList _ => "list"
  | JDict _ => "dict"
  end.

Definition type_name (v : value) : string :=
  match v with
  | Plain j => json_type_name j
  | Tuple _ => "tuple"
  | Model _ => "SentenceTransformer"
  | Ndarray _ => "numpy.ndarray"
  | Object cls _ => cls
  end.

(** *** [x in container] and [container[key]] for a str [x] or [key] *)

Fixpoint is_substring (needle s : string) : bool :=
  String.prefix needle s ||
  match s with
  | EmptyString => false
  | String _ rest => is_substring needle rest
  end.

Definition is_str (x : string) (j : json) : bool :=
  match j with JStr s => bool_decide (s = x) | _ => false end.

Definition py_contains (x : string) (container : json) : result bool :=
  match container with
  | JDict d => Ok (bool_decide (is_Some (d !! x)))
  | JList l => Ok (existsb (is_str x) l)
  | JStr s => Ok (is_substring x s)
  | _ => Raise (Exn TypeError
            ("argument of type '" +:+ json_type_name container +:+ "' is not iterable"))
  end.

Definition py_getitem (container : json) (key : string) : result json :=
  match container with
  | JDict d =>
      match d !! key with
      | Some v => Ok v
      | None => Raise (Exn KeyError ("'" +:+ key +:+ "'"))
      end
  | JList _ => Raise (Exn TypeError "list indices must be integers or slices, not str")
  | JStr _ => Raise (Exn TypeError "string indices must be integers, not 'str'")
  | _ => Raise (Exn TypeError
            ("'" +:+ json_type_name container +:+ "' object is not subscriptable"))
  end.

(** *** Keys of a dict

    A dict finds a key by hash and [==].  None, a str and a number can be
    keys; numbers are equal when they denote the same number whatever
    their type ([True == 1 == 1.0]), so a finite number is keyed by its
    value [n * 2^e] with [n] odd.  A NaN is equal to no float, but a
    dict compares the identity of a key before it asks [==], and
    [json.loads] yields one and the same object, [json.decoder.NaN], for
    every NaN it reads: the only NaN that reaches the cache is found
    again like any other key.  A list or a dict cannot be hashed. *)

Inductive hkey :=
| KNone
| KNum (n e : Z)
| KInf (neg : bool)
| KNaN
| KStr (s : string).

#[global] Instance hkey_eq_dec : EqDecision hkey.
Proof. solve_decision. Defined.

#[global] Instance hkey_countable : Countable hkey.
Proof.
  refine (inj_countable'
    (λ k, match k with
          | KNone => inl (inl tt)
          | KNum n e => inl (inr (n, e))
          | KInf b => inr (inl b)
          | KNaN => inr (inr (inl tt))
          | KStr s => inr (inr (inr s))
          end)
    (λ c, match c with
          | inl (inl _) => KNone
          | inl (inr (n, e)) => KNum n e
          | inr (inl b) => KInf b
          | inr (inr (inl _)) => KNaN
          | inr (inr (inr s)) => KStr s
          end) _).
  by intros [].
Defined.

Fixpoint odd_part (p : positive) : positive * Z :=
  match p with
  | xO q => let '(o, k) := odd_part q in (o, Z.succ k)
  | _ => (p, 0%Z)
  end.

Definition dyadic_key (neg : bool) (m : positive) (e : Z) : hkey :=
  let '(o, k) := odd_part m in
  KNum (if neg then Zneg o else Zpos o) (e + k).

Definition int_key (z : Z) : hkey :=
  match z with
  | Z0 => KNum 0 0
  | Zpos p => dyadic_key false p 0
  | Zneg p => dyadic_key true p 0
  end.

Definition float_key (x : spec_float) : hkey :=
  match x with
  | S754_zero _ => KNum 0 0
  | S754_infinity s => KInf s
  | S754_nan => KNaN
  | S754_finite s m e => dyadic_key s m e
  end.

Definition py_hash (j : json) : result hkey :=
  match j with
  | JNone => Ok KNone
  | JBool b => Ok (int_key (if b then 1 else 0))
  | JInt z => Ok (int_key z)
  | JFloat x => Ok (float_key x)
  | JStr s => Ok (KStr s)
  | JList _ | JDict _ =>
      Raise (Exn TypeError ("unhashable type: '" +:+ json_type_name j +:+ "'"))
  end.

(** [key in d] and [d[key]] on the keys. *)
Definition dict_lookup {A} (k : hkey) (d : gmap hkey A) : option A := d !! k.

(** ** Floats: binary64 and binary32 *)

#[global] Instance spec_float_eq_dec : EqDecision spec_float.
Proof. solve_decision. Defined.

(** Rounding to nearest, ties to even, to the numbers of a format. *)
Definition round_to (prec emax : Z) (x : spec_float) : spec_float :=
  match x with
  | S754_finite s m e => binary_round prec emax s m e
  | _ => x
  end.

Definition float32_of_float : spec_float → spec_float := round_to 24 128.
Definition float64_of_float : spec_float → spec_float := round_to 53 1024.

Definition float32_of_Z (z : Z) : spec_float := binary_normalize 24 128 z 0 false.

(** The binary64 number a Python float becomes in a float32 array and
    back ([float(numpy.float32(x))]). *)
Definition to_float32 (x : spec_float) : spec_float :=
  float64_of_float (float32_of_float x).

(** A Python float has 32-bit precision when it is a binary32 number. *)
Definition is_float32 (x : spec_float) : bool :=
  bool_decide (to_float32 x = x).

(** *** [a.astype(numpy.float32)] and [a.tolist()] *)

(** The value of an item once converted to float32. *)
Definition scalar_float32 (x : scalar) : spec_float :=
  match x with
  | NpBool b => float64_of_float (float32_of_Z (if b then 1 else 0))
  | NpInt z => float64_of_float (float32_of_Z z)
  | NpFloat x => to_float32 x
  end.

Definition scalar_astype_float32 (x : scalar) : scalar :=
  NpFloat (scalar_float32 x).

Fixpoint astype_float32 (a : ndarray) : ndarray :=
  match a with
  | NdItem x => NdItem (scalar_astype_float32 x)
  | NdAxis l => NdAxis (map astype_float32 l)
  end.

Definition scalar_item (x : scalar) : json :=
  match x with
  | NpBool b => JBool b
  | NpInt z => JInt z
  | NpFloat x => JFloat x
  end.

Fixpoint ndarray_tolist (a : ndarray) : json :=
  match a with
  | NdItem x => scalar_item x
  | NdAxis l => JList (map ndarray_tolist l)
  end.

(** Plain data that holds floats of 32-bit precision only: such a float,
    or a list, nested to any depth, of such floats. *)
Fixpoint all_float32 (j : json) : bool :=
  match j with
  | JFloat x => is_float32 x
  | JList l => forallb all_float32 l
  | _ => false
  end.

(** *** What [json.dumps] takes: plain data, and tuples of it *)

Fixpoint serializable (v : value) : bool :=
  match v with
  | Plain _ => true
  | Tuple l => forallb serializable l
  | Model _ | Ndarray _ | Object _ _ => false
  end.

(** ** [str.strip()]

    The white space of [str.isspace] among the code points below 256:
    tab to carriage return, the four separators, the space, NEL and the
    no-break space. *)

Definition isspace (c : ascii) : bool :=
  let n := N_of_ascii c in
  ((9 <=? n) && (n <=? 13) || (28 <=? n) && (n <=? 32)
   || (n =? 133) || (n =? 160))%N.

Fixpoint lstrip (s : string) : string :=
  match s with
  | EmptyString => EmptyString
  | String c rest => if isspace c then lstrip rest else s
  end.

Fixpoint rstrip (s : string) : string :=
  match s with
  | EmptyString => EmptyString
  | String c rest =>
      match rstrip rest with
      | EmptyString => if isspace c then EmptyString else String c EmptyString
      | kept => String c kept
      end
  end.

Definition strip (s : string) : string := rstrip (lstrip s).

Fixpoint all_space (s : string) : bool :=
  match s with
  | EmptyString => true
  | String c rest => isspace c && all_space rest
  end.

Definition first_char (s : string) : option ascii :=
  match s with
  | EmptyString => None
  | String c _ => Some c
  end.

Fixpoint last_char (s : string) : option ascii :=
  match s with
  | EmptyString => None
  | String c EmptyString => Some c
  | String _ rest => last_char rest
  end.

(** ** The libraries

    [world] is the state of everything outside the script that a call
    may read or change: the model store, the network, torch's settings.
    [torch_set_num_threads] is [None] when [torch] has no such attribute.
    [json.dumps] raises on an object it cannot serialise only. *)

Class Library := {
  world : Type;
  json_loads : string → result json;
  json_dumps : gmap string value → result string;
  json_dumps_serializable (d : gmap string value) :
    map_Forall (λ _ v, serializable v = true) d → is_Ok (json_dumps d) = true;
  py_str : json → string;
  SentenceTransformer : json → world → result handle * world;
  torch_set_num_threads : option (Z → world → result unit * world);
  encode : handle → json → world → result value * world
}.

(** [repr(x)], which is what [str()] makes of a [KeyError]: a str in
    quotes (escapes apart), anything else as [str()] has it. *)
Definition repr `{Library} (x : json) : string :=
  match x with
  | JStr s => "'" +:+ s +:+ "'"
  | _ => py_str x
  end.

(** [f"{x}"]: a str as it is, anything else through [str()]. *)
Definition format `{Library} (x : json) : string :=
  match x with
  | JStr s => s
  | _ => py_str x
  end.

Section Server.
Context `{L : Library}.

(** ** The state of the process

    [_model_cache] is the module's global dict.  [load_calls] records the
    argument of every call of [SentenceTransformer], oldest first: the
    load count of a test double.  [stdout] holds the lines printed. *)

Record state := State {
  _model_cache : gmap hkey value;
  outside : world;
  load_calls : list json;
  stdout : list string
}.

(** A statement of the script: it reads and changes the state and
    returns a value or raises. *)
Definition M (A : Type) : Type := state → result A * state.

#[global] Instance M_ret : MRet M := λ A a st, (Ok a, st).

#[global] Instance M_bind : MBind M := λ A B k m st,
  match m st with
  | (Ok a, st') => k a st'
  | (Raise e, st') => (Raise e, st')
  end.

Definition raise {A} (e : exn) : M A := λ st, (Raise e, st).

Definition lift {A} (r : result A) : M A := λ st, (r, st).

(** [try: m  except Exception as e: h e]; what [m] did to the state
    before it raised stays done. *)
Definition try_except {A} (m : M A) (h : exn → M A) : M A :=
  λ st, match m st with
        | (Ok a, st') => (Ok a, st')
        | (Raise e, st') => h e st'
        end.

(** [try: m  finally: f] *)
Definition try_finally {A} (m : M A) (f : M unit) : M A :=
  λ st, match m st with
        | (r, st') =>
            match f st' with
            | (Ok _, st'') => (r, st'')
            | (Raise e, st'') => (Raise e, st'')
            end
        end.

(** *** Calls across the interface *)

Definition call_SentenceTransformer (model_name : json) : M value :=
  λ st,
    let '(r, w) := SentenceTransformer model_name (outside st) in
    (match r with Ok h => Ok (Model h) | Raise e => Raise e end,
     State (_model_cache st) w (load_calls st ++ [model_name]) (stdout st)).

Definition call_world {A} (f : world → result A * world) : M A :=
  λ st,
    let '(r, w) := f (outside st) in
    (r, State (_model_cache st) w (load_calls st) (stdout st)).

Definition print (line : string) : M unit :=
  λ st, (Ok (), State (_model_cache st) (outside st) (load_calls st)
                      (stdout st ++ [line])).

(** [gc.collect()] frees memory and changes nothing that the script can
    observe. *)
Definition gc_collect : M unit := mret ().

(** *** The cache *)

Definition cache_contains (model_name : json) : M bool :=
  λ st, match py_hash model_name with
        | Ok k => (Ok (bool_decide (is_Some (dict_lookup k (_model_cache st)))), st)
        | Raise e => (Raise e, st)
        end.

Definition cache_getitem (model_name : json) : M value :=
  λ st, match py_hash model_name with
        | Ok k =>
            match dict_lookup k (_model_cache st) with
            | Some v => (Ok v, st)
            | None => (Raise (Exn KeyError (repr model_name)), st)
            end
        | Raise e => (Raise e, st)
        end.

Definition cache_setitem (model_name : json) (model : value) : M unit :=
  λ st, match py_hash model_name with
        | Ok k => (Ok (), State (<[k := model]> (_model_cache st)) (outside st)
                                (load_calls st) (stdout st))
        | Raise e => (Raise e, st)
        end.

(** ** load_model *)

Definition load_model (model_name : json) : M value :=
  try_except
    (cached ← cache_contains model_name;
     if cached : bool then cache_getitem model_name
     else
       model ← call_SentenceTransformer model_name;
       match torch_set_num_threads with
       | Some set_num_threads => call_world (set_num_threads 1%Z)
       | None => mret ()
       end;;
       cache_setitem model_name model;;
       mret model)
    (λ e, mret (Tuple [None_; Str (exn_str e)])).

(** ** generate_embedding *)

(** [model.encode(text, ...)]: a [SentenceTransformer] has the method; a
    str has a method of that name which takes none of these keywords; no
    other object here has the attribute. *)
Definition call_encode (model : value) (text : json) : M value :=
  match model with
  | Model h => call_world (encode h text)
  | Plain (JStr _) =>
      raise (Exn TypeError
               "'convert_to_tensor' is an invalid keyword argument for encode()")
  | _ => raise (Exn AttributeError
                  ("'" +:+ type_name model +:+ "' object has no attribute 'encode'"))
  end.

Definition is_ndarray (v : value) : bool :=
  match v with Ndarray _ => true | _ => false end.

Definition astype (v : value) : value :=
  match v with
  | Ndarray a => Ndarray (astype_float32 a)
  | _ => v
  end.

Definition call_tolist (v : value) : M value :=
  match v with
  | Ndarray a => mret (Plain (ndarray_tolist a))
  | Object _ (Some l) => mret (Plain l)
  | _ => raise (Exn AttributeError
                  ("'" +:+ type_name v +:+ "' object has no attribute 'tolist'"))
  end.

Definition generate_embedding (model : value) (text : json) : M value :=
  try_except
    (embedding ← call_encode model text;
     let embedding :=
       if is_ndarray embedding then astype embedding else embedding in
     gc_collect;;
     call_tolist embedding)
    (λ e, mret (Tuple [None_; Str (exn_str e)])).

(** ** handle_request *)

Definition error_response (msg : string) : gmap string value :=
  {[ "error" := Str msg ]}.

Definition handle_request (request_data : string) : M (gmap string value) :=
  try_except
    (match json_loads request_data with
     | Raise e =>
         if is_JSONDecodeError e
         then mret (error_response ("Invalid JSON input: " +:+ exn_str e))
         else raise e
     | Ok request =>
         has_text ← lift (py_contains "text" request);
         if negb has_text
         then mret (error_response "Missing 'text' field in request")
         else
           has_model ← lift (py_contains "model" request);
           if negb has_model
           then mret (error_response "Missing 'model' field in request")
           else
             text ← lift (py_getitem request "text");
             model_name ← lift (py_getitem request "model");
             model ← load_model model_name;
             if is_None model
             then mret (error_response ("Failed to load model: " +:+ format model_name))
             else
               embedding ← generate_embedding model text;
               if is_None embedding
               then mret (error_response "Failed to generate embedding")
               else mret {[ "embedding" := embedding ]}
     end)
    (λ e, mret (error_response ("Unexpected error: " +:+ exn_str e))).

(** ** main *)

Inductive control := Continue | Break.

Definition print_json (d : gmap string value) : M unit :=
  out ← lift (json_dumps d); print out.

(** The body of the [for] loop, for one line read from [sys.stdin]. *)
Definition loop_body (line : string) : M control :=
  let line := strip line in
  if bool_decide (line = "") then mret Continue
  else if bool_decide (line = "QUIT") then mret Break
  else
    response ← handle_request line;
    print_json response;;
    mret Continue.

Fixpoint for_lines (stdin : list string) : M unit :=
  match stdin with
  | [] => mret ()
  | line :: rest =>
      c ← loop_body line;
      match c with
      | Continue => for_lines rest
      | Break => mret ()
      end
  end.

Definition main (stdin : list string) : M unit :=
  try_finally
    (try_except
       (print_json {[ "status" := Str "ready" ]};;
        for_lines stdin)
       (λ e, print_json (error_response ("Server error: " +:+ exn_str e))))
    gc_collect.

End Server.

Arguments state : clear implicits.
Arguments state {L}.

(** ** A test double

    Three models can be loaded: [test-model], whose [encode] returns the
    float64 array [[0.1, 0.2]]; [tensor-model], whose [encode] returns a
    tensor that holds the float 0.1; [broken-model], whose [encode]
    raises.  Any other name is unknown to the loader.  The parser knows
    the request lines built by [request_line] and the line
    [{"model": m}]. *)

Module Stub.

Definition dq : string := String "034"%char EmptyString.

(** The end of a line. *)
Definition nl : string := String "010"%char EmptyString.

Definition field (key val : string) : string :=
  dq +:+ key +:+ dq +:+ ": " +:+ dq +:+ val +:+ dq.

Definition request_line (text model : string) : string :=
  "{" +:+ field "text" text +:+ ", " +:+ field "model" model +:+ "}".

Definition model_only_line (model : string) : string :=
  "{" +:+ field "model" model +:+ "}".

Definition text_only_line (text : string) : string :=
  "{" +:+ field "text" text +:+ "}".

Definition request (text model : string) : json :=
  JDict {[ "text" := JStr text; "model" := JStr model ]}.

Definition models : list string :=
  ["test-model"; "tensor-model"; "broken-model"; "no-such-model"].

Definition loads (s : string) : result json :=
  match
    find (λ m, bool_decide (s = request_line "hello" m)) models,
    find (λ m, bool_decide (s = model_only_line m)) models
  with
  | Some m, _ => Ok (request "hello" m)
  | None, Some m => Ok (JDict {[ "model" := JStr m ]})
  | None, None =>
      if bool_decide (s = text_only_line "hello")
      then Ok (JDict {[ "text" := JStr "hello" ]})
      else if bool_decide (s = "{}") then Ok (JDict ∅)
      else Raise (Exn JSONDecodeError "Expecting value: line 1 column 1 (char 0)")
  end.

Definition dumps_value (v : value) : string :=
  match v with
  | Plain (JStr s) => dq +:+ s +:+ dq
  | Plain JNone => "null"
  | _ => "[...]"
  end.

Definition dumps (d : gmap string value) : result string :=
  if decide (map_Forall (λ _ v, serializable v = true) d)
  then Ok ("{" +:+
           String.concat ", "
             ((λ kv, dq +:+ kv.1 +:+ dq +:+ ": " +:+ dumps_value kv.2)
                <$> map_to_list d)
           +:+ "}")
  else Raise (Exn TypeError "Object is not JSON serializable").

Definition load (model_name : json) (w : unit) : result handle * unit :=
  match model_name with
  | JStr "test-model" => (Ok 1%N, w)
  | JStr "tensor-model" => (Ok 2%N, w)
  | JStr "broken-model" => (Ok 3%N, w)
  | _ => (Raise (Exn (OtherException "OSError") "model not found"), w)
  end.

(** 0.1 and 0.2 as Python has them: binary64 numbers. *)
Definition f0_1 : spec_float := S754_finite false 7205759403792794 (-56).
Definition f0_2 : spec_float := S754_finite false 7205759403792794 (-55).


Definition infer (h : handle) (text : json) (w : unit) : result value * unit :=
  match h with
  | 1%N => (Ok (Ndarray (NdAxis [NdItem (NpFloat f0_1); NdItem (NpFloat f0_2)])), w)
  | 2%N => (Ok (Object "Tensor" (Some (JList [JFloat f0_1]))), w)
  | _ => (Raise (Exn (OtherException "RuntimeError") "inference failed"), w)
  end.

#[refine] Instance lib : Library := {|
  world := unit;
  json_loads := loads;
  json_dumps := dumps;
  py_str := λ _, "?";
  SentenceTransformer := load;
  torch_set_num_threads := Some (λ _ w, (Ok (), w));
  encode := infer
|}.
Proof.
  intros d Hd. unfold dumps. by rewrite decide_True.
Defined.

(** The process as it starts: nothing cached, nothing loaded or printed. *)
Definition st0 : state := State ∅ () [] [].

End Stub.

(** ** A double whose models return lists

    As [Stub], except that [torch] has no [set_num_threads] and that the
    [encode] of every model returns the Python list [[0.1, 0.2]]. *)

Module ListStub.

Definition infer (h : handle) (text : json) (w : unit) : result value * unit :=
  (Ok (Plain (JList [JFloat Stub.f0_1; JFloat Stub.f0_2])), w).

Definition lib : Library.
Proof.
  refine {|
    world := unit;
    json_loads := Stub.loads;
    json_dumps := Stub.dumps;
    py_str := λ _, "?";
    SentenceTransformer := Stub.load;
    torch_set_num_threads := None;
    encode := infer
  |}.
  intros d Hd. unfold Stub.dumps. by rewrite decide_True.
Defined.

Definition st0 : state (L:=lib) := State (L:=lib) ∅ () [] [].

End ListStub.

(** * Properties *)

Ltac run :=
  unfold mbind, M_bind, mret, M_ret, try_except, lift, raise, gc_collect in *;
  simpl in *.

Section LoadModel.
Context `{L : Library}.

Lemma dict_lookup_Some {A} (k : hkey) (d : gmap hkey A) (v : A) :
  dict_lookup k d = Some v → d !! k = Some v.
Proof. done. Qed.

(** What is stored under a key is found under it. *)
Lemma dict_lookup_insert {A} (k : hkey) (d : gmap hkey A) (v : A) :
  dict_lookup k (<[k := v]> d) = Some v.
Proof. apply lookup_insert_eq. Qed.

(** A hit: the cached object is returned and nothing else happens. *)
Lemma load_model_hit (model_name : json) (k : hkey) (v : value) (st : state) :
  py_hash model_name = Ok k →
  dict_lookup k (_model_cache st) = Some v →
  load_model model_name st = (Ok v, st).
Proof.
  intros Hk Hv. unfold load_model, cache_contains, cache_getitem. run.
  rewrite Hk. simpl. rewrite Hv. simpl. by rewrite Hv.
Qed.

(** Lines 32 and 33 on their own, as they act on the world outside:
    [torch.set_num_threads(1)] when [torch] has the attribute, nothing
    otherwise. *)
Definition set_num_threads_if_present (w : world) : result unit * world :=
  match torch_set_num_threads with
  | Some set_num_threads => set_num_threads 1%Z w
  | None => (Ok (), w)
  end.

(** A miss followed by a load that succeeds: the loader is called once,
    the new model is stored under the identifier and returned. *)
Lemma load_model_loads
    (model_name : json) (k : hkey) (h : handle) (w w' : world) (st : state) :
  py_hash model_name = Ok k →
  dict_lookup k (_model_cache st) = None →
  SentenceTransformer model_name (outside st) = (Ok h, w) →
  set_num_threads_if_present w = (Ok (), w') →
  load_model model_name st =
    (Ok (Model h),
     State (<[k := Model h]> (_model_cache st)) w'
           (load_calls st ++ [model_name]) (stdout st)).
Proof.
  intros Hk Hmiss Hload Hthreads.
  unfold load_model, cache_contains, cache_setitem, call_SentenceTransformer,
    call_world. run.
  rewrite Hk. simpl. rewrite Hmiss. simpl. rewrite Hload. simpl.
  unfold set_num_threads_if_present in Hthreads.
  destruct torch_set_num_threads as [set_num_threads|]; simpl.
  - by rewrite Hthreads.
  - by injection Hthreads as <-.
Qed.

(** The three ways a call of [load_model] ends: a hit; a failure, which
    leaves the cache as it was; a load, which caches the new model. *)
Lemma load_model_cases (model_name : json) (st : state) :
  let '(r, st') := load_model model_name st in
  (∃ k v, py_hash model_name = Ok k ∧
          dict_lookup k (_model_cache st) = Some v ∧
          r = Ok v ∧ st' = st)
  ∨ ((∃ msg, r = Ok (Tuple [None_; Str msg])) ∧
     (∀ k, py_hash model_name = Ok k → dict_lookup k (_model_cache st) = None) ∧
     _model_cache st' = _model_cache st ∧
     stdout st' = stdout st ∧
     (load_calls st' = load_calls st ∨
      load_calls st' = (load_calls st ++ [model_name])%list))
  ∨ (∃ k h, py_hash model_name = Ok k ∧
            dict_lookup k (_model_cache st) = None ∧
            r = Ok (Model h) ∧
            _model_cache st' = <[k := Model h]> (_model_cache st) ∧
            stdout st' = stdout st ∧
            load_calls st' = (load_calls st ++ [model_name])%list).
Proof.
  unfold load_model, cache_contains, cache_getitem, cache_setitem,
    call_SentenceTransformer, call_world. run.
  destruct (py_hash model_name) as [k|e] eqn:Hk; simpl;
    [|right; left; split_and!; by eauto].
  destruct (dict_lookup k (_model_cache st)) as [v|] eqn:Hv; simpl.
  { rewrite Hv. simpl. left. by exists k, v. }
  assert (∀ k', Ok k = Ok k' → dict_lookup k' (_model_cache st) = None)
    by (by intros ? [= <-]).
  destruct (SentenceTransformer model_name (outside st)) as [[h|e] w]; simpl;
    [|right; left; split_and!; by eauto].
  destruct torch_set_num_threads as [set_num_threads|]; simpl.
  - destruct (set_num_threads 1%Z w) as [[[]|e] w']; simpl;
      [|right; left; split_and!; by eauto].
    right. right. by exists k, h.
  - right. right. by exists k, h.
Qed.

(** The except clause of [load_model] catches every exception. *)
Lemma load_model_returns (model_name : json) (st : state) :
  ∃ v, (load_model model_name st).1 = Ok v.
Proof.
  unfold load_model, try_except.
  match goal with
  | |- context [match ?m st with _ => _ end] => destruct (m st) as [[v|e] st']
  end; simpl; eauto.
Qed.

(** C3. A load that fails leaves the model cache as it was: when the
    loader raises for a model identifier, the cache after [load_model] is
    the cache before it, so no entry was added under the identifier. *)
Theorem load_failure_leaves_cache
    (model_name : json) (st : state) (e : exn) (w : world) :
  SentenceTransformer model_name (outside st) = (Raise e, w) →
  _model_cache (load_model model_name st).2 = _model_cache st.
Proof.
  intros Hload. pose proof (load_model_cases model_name st) as Hcases.
  destruct (load_model model_name st) as [r st'] eqn:Hrun. simpl.
  destruct Hcases as [(k & v & _ & _ & _ & ->)|[(_ & _ & Hc & _)|Hloaded]];
    [done..|].
  exfalso. destruct Hloaded as (k & h & Hk & Hmiss & -> & _).
  revert Hrun. unfold load_model, cache_contains, call_SentenceTransformer. run.
  rewrite Hk. simpl. rewrite Hmiss. simpl. rewrite Hload. simpl.
  by intros [= ?].
Qed.

(** A call loads at most once. *)
Lemma load_model_calls (model_name : json) (st : state) :
  (List.length (load_calls (load_model model_name st).2)
   ≤ S (List.length (load_calls st)))%nat.
Proof.
  pose proof (load_model_cases model_name st) as Hcases.
  destruct (load_model model_name st) as [r st']. simpl.
  destruct Hcases as [(_&_&_&_&_&->)|[(_&_&_&_&[->| ->])|(_&_&_&_&_&_&_&->)]];
    rewrite ?length_app; simpl; lia.
Qed.

End LoadModel.

Section HandleRequest.
Context `{L : Library}.

(** A response holds one key, [embedding] or [error]. *)
Definition one_key (response : gmap string value) : Prop :=
  dom response = {[ "embedding" ]} ∨ dom response = {[ "error" ]}.

Lemma one_key_error (msg : string) : one_key (error_response msg).
Proof. right. unfold error_response. by rewrite dom_singleton_L. Qed.

Lemma one_key_embedding (v : value) : one_key {[ "embedding" := v ]}.
Proof. left. by rewrite dom_singleton_L. Qed.

(** [generate_embedding] catches every exception, returns plain data or
    a pair of plain data, and touches neither the cache nor the output. *)
Lemma generate_embedding_returns (model : value) (text : json) (st : state) :
  ∃ v st', generate_embedding model text st = (Ok v, st') ∧
           serializable v = true ∧
           _model_cache st' = _model_cache st ∧
           load_calls st' = load_calls st ∧
           stdout st' = stdout st.
Proof.
  unfold generate_embedding, call_encode, call_tolist, call_world. run.
  destruct model as [[]| | | |]; simpl; eauto 10.
  destruct (encode h text (outside st)) as [[out|e] w]; simpl; [|by eauto 10].
  destruct out as [| | | |cls [l|]]; simpl; eauto 10.
Qed.

(** What [handle_request] does with a request that is a dict holding
    both fields. *)
Lemma handle_request_fields
    (request_data : string) (d : gmap string json) (text model_name : json)
    (st : state) :
  json_loads request_data = Ok (JDict d) →
  d !! "text" = Some text →
  d !! "model" = Some model_name →
  handle_request request_data st =
    let '(r, st1) := load_model model_name st in
    match r with
    | Raise e => (Ok (error_response ("Unexpected error: " +:+ exn_str e)), st1)
    | Ok model =>
        if is_None model
        then (Ok (error_response ("Failed to load model: " +:+ format model_name)), st1)
        else
          let '(r', st2) := generate_embedding model text st1 in
          match r' with
          | Raise e => (Ok (error_response ("Unexpected error: " +:+ exn_str e)), st2)
          | Ok embedding =>
              if is_None embedding
              then (Ok (error_response "Failed to generate embedding"), st2)
              else (Ok {[ "embedding" := embedding ]}, st2)
          end
    end.
Proof.
  intros Hparse Htext Hmodel. unfold handle_request. rewrite Hparse. run.
  rewrite Htext, Hmodel. simpl.
  destruct (load_model model_name st) as [[model|e] st1]; simpl; [|done].
  destruct (is_None model); simpl; [done|].
  destruct (generate_embedding model text st1) as [[embedding|e] st2]; simpl;
    [|done].
  by destruct (is_None embedding).
Qed.

(** C9. Whatever the input string, and whatever the parser, the loader
    and the model do, [handle_request] raises nothing and returns a dict
    that holds exactly one key, which is [embedding] or [error]. *)
Theorem handle_request_total (request_data : string) (st : state) :
  ∃ response st',
    handle_request request_data st = (Ok response, st') ∧ one_key response.
Proof.
  pose proof one_key_error. pose proof one_key_embedding.
  unfold handle_request. run.
  destruct (json_loads request_data) as [request|e]; simpl;
    [|destruct (is_JSONDecodeError e); simpl; by eauto].
  destruct (py_contains "text" request) as [[]|e]; simpl; [|by eauto..].
  destruct (py_contains "model" request) as [[]|e]; simpl; [|by eauto..].
  destruct (py_getitem request "text") as [text|e]; simpl; [|by eauto].
  destruct (py_getitem request "model") as [model_name|e]; simpl; [|by eauto].
  destruct (load_model model_name st) as [[model|e] st1]; simpl; [|by eauto].
  destruct (is_None model); simpl; [by eauto|].
  destruct (generate_embedding model text st1) as [[embedding|e] st2]; simpl;
    [|by eauto].
  destruct (is_None embedding); simpl; by eauto.
Qed.

(** C6. For a line that parses as a JSON object: without a [text] key
    the response is exactly the missing-text error, whether or not there
    is a [model] key; with a [text] key and without a [model] key it is
    exactly the missing-model error.  Nothing else happens. *)
Theorem missing_field_response
    (request_data : string) (d : gmap string json) (st : state) :
  json_loads request_data = Ok (JDict d) →
  (d !! "text" = None →
   handle_request request_data st =
     (Ok {[ "error" := Str "Missing 'text' field in request" ]}, st))
  ∧
  (is_Some (d !! "text") → d !! "model" = None →
   handle_request request_data st =
     (Ok {[ "error" := Str "Missing 'model' field in request" ]}, st)).
Proof.
  intros Hparse. unfold handle_request. rewrite Hparse. run. split.
  - intros ->. done.
  - intros [text ->] ->. done.
Qed.

(** A failed load reaches [handle_request] as the pair [(None, message)],
    which is not [None]: the pair goes on to [generate_embedding], has no
    [encode] attribute, and the pair that reports this is returned as the
    embedding. *)
Lemma failed_load_response
    (request_data : string) (d : gmap string json) (text model_name : json)
    (msg : string) (st st1 : state) :
  json_loads request_data = Ok (JDict d) →
  d !! "text" = Some text →
  d !! "model" = Some model_name →
  load_model model_name st = (Ok (Tuple [None_; Str msg]), st1) →
  handle_request request_data st =
    (Ok {[ "embedding" :=
             Tuple [None_; Str "'tuple' object has no attribute 'encode'"] ]},
     st1).
Proof.
  intros Hparse Htext Hmodel Hload.
  rewrite (handle_request_fields _ _ _ _ _ Hparse Htext Hmodel), Hload.
  done.
Qed.

Lemma load_model_raise
    (model_name : json) (st : state) (e : exn) (w : world) :
  (∀ k, py_hash model_name = Ok k → dict_lookup k (_model_cache st) = None) →
  SentenceTransformer model_name (outside st) = (Raise e, w) →
  ∃ msg, load_model model_name st =
    (Ok (Tuple [None_; Str msg]),
     match py_hash model_name with
     | Ok _ => State (_model_cache st) w (load_calls st ++ [model_name]) (stdout st)
     | Raise _ => st
     end).
Proof.
  intros Hmiss Hload.
  unfold load_model, cache_contains, call_SentenceTransformer. run.
  destruct (py_hash model_name) as [k|e']; simpl; [|by eauto].
  rewrite (Hmiss k eq_refl). simpl. rewrite Hload. simpl. by eauto.
Qed.

(** So it is for every request with both fields whose model is not in the
    cache and fails to load. *)
Lemma load_failure_response
    (request_data : string) (d : gmap string json) (text model_name : json)
    (e : exn) (w : world) (st : state) :
  json_loads request_data = Ok (JDict d) →
  d !! "text" = Some text →
  d !! "model" = Some model_name →
  (∀ k, py_hash model_name = Ok k → dict_lookup k (_model_cache st) = None) →
  SentenceTransformer model_name (outside st) = (Raise e, w) →
  (handle_request request_data st).1 =
    Ok {[ "embedding" :=
            Tuple [None_; Str "'tuple' object has no attribute 'encode'"] ]}.
Proof.
  intros Hparse Htext Hmodel Hmiss Hload.
  destruct (load_model_raise model_name st e w Hmiss Hload) as [msg Hfail].
  by rewrite (failed_load_response _ _ _ _ _ _ _ Hparse Htext Hmodel Hfail).
Qed.

(** A failed inference comes back from [generate_embedding] as the pair
    [(None, message)] as well, and is returned as the embedding. *)
Lemma generate_embedding_raise
    (h : handle) (text : json) (st : state) (e : exn) (w : world) :
  encode h text (outside st) = (Raise e, w) →
  generate_embedding (Model h) text st =
    (Ok (Tuple [None_; Str (exn_str e)]),
     State (_model_cache st) w (load_calls st) (stdout st)).
Proof.
  intros Hencode. unfold generate_embedding, call_encode, call_world. run.
  by rewrite Hencode.
Qed.

Lemma failed_inference_response
    (request_data : string) (d : gmap string json) (text model_name : json)
    (h : handle) (e : exn) (w : world) (st st1 : state) :
  json_loads request_data = Ok (JDict d) →
  d !! "text" = Some text →
  d !! "model" = Some model_name →
  load_model model_name st = (Ok (Model h), st1) →
  encode h text (outside st1) = (Raise e, w) →
  handle_request request_data st =
    (Ok {[ "embedding" := Tuple [None_; Str (exn_str e)] ]},
     State (_model_cache st1) w (load_calls st1) (stdout st1)).
Proof.
  intros Hparse Htext Hmodel Hload Hencode.
  rewrite (handle_request_fields _ _ _ _ _ Hparse Htext Hmodel), Hload.
  simpl. by rewrite (generate_embedding_raise _ _ _ _ _ Hencode).
Qed.

(** A response can be serialised, and [handle_request] prints nothing. *)
Lemma handle_request_serializable (request_data : string) (st : state) :
  ∃ response st',
    handle_request request_data st = (Ok response, st') ∧
    map_Forall (λ _ v, serializable v = true) response ∧
    stdout st' = stdout st.
Proof.
  assert (∀ msg, map_Forall (λ _ v, serializable v = true) (error_response msg))
    as Herror by (intros; by apply map_Forall_singleton).
  unfold handle_request. run.
  destruct (json_loads request_data) as [request|e]; simpl;
    [|destruct (is_JSONDecodeError e); simpl; by eauto].
  destruct (py_contains "text" request) as [[]|e]; simpl; [|by eauto..].
  destruct (py_contains "model" request) as [[]|e]; simpl; [|by eauto..].
  destruct (py_getitem request "text") as [text|e]; simpl; [|by eauto].
  destruct (py_getitem request "model") as [model_name|e]; simpl; [|by eauto].
  pose proof (load_model_cases model_name st) as Hload.
  destruct (load_model model_name st) as [[model|e] st1]; simpl.
  2: { destruct Hload as [(?&?&?&?&?&?)|[((?&?)&?)|(?&?&?&?&?&?)]]; done. }
  assert (stdout st1 = stdout st) as Hout.
  { destruct Hload as [(?&?&?&?&?&->)|[(?&?&?&?&?)|(?&?&?&?&?&?&?&?)]]; done. }
  destruct (is_None model); simpl; [by eauto|].
  destruct (generate_embedding_returns model text st1)
    as (embedding & st2 & -> & Hser & _ & _ & Hout2). simpl.
  destruct (is_None embedding); simpl.
  - exists (error_response "Failed to generate embedding"), st2.
    split_and!; [done|by apply Herror|congruence].
  - exists {[ "embedding" := embedding ]}, st2.
    split_and!; [done|by apply map_Forall_singleton|congruence].
Qed.

(** A request loads at most once. *)
Lemma handle_request_calls (request_data : string) (st : state) :
  (List.length (load_calls (handle_request request_data st).2)
   ≤ S (List.length (load_calls st)))%nat.
Proof.
  unfold handle_request. run.
  destruct (json_loads request_data) as [request|e]; simpl;
    [|destruct (is_JSONDecodeError e); simpl; lia].
  destruct (py_contains "text" request) as [[]|e]; simpl; [|lia..].
  destruct (py_contains "model" request) as [[]|e]; simpl; [|lia..].
  destruct (py_getitem request "text") as [text|e]; simpl; [|lia].
  destruct (py_getitem request "model") as [model_name|e]; simpl; [|lia].
  pose proof (load_model_calls model_name st) as Hcalls.
  destruct (load_model model_name st) as [[model|e] st1]; simpl in *; [|done].
  destruct (is_None model); simpl; [done|].
  destruct (generate_embedding_returns model text st1)
    as (embedding & st2 & -> & _ & _ & Hsame & _). simpl.
  destruct (is_None embedding); simpl; by rewrite Hsame.
Qed.

(** A request for a model that is in the cache loads nothing, leaves the
    cache as it is and answers with what [generate_embedding] makes of
    the cached model. *)
Lemma handle_request_hit
    (request_data : string) (d : gmap string json) (text model_name : json)
    (k : hkey) (h : handle) (st : state) :
  json_loads request_data = Ok (JDict d) →
  d !! "text" = Some text →
  d !! "model" = Some model_name →
  py_hash model_name = Ok k →
  dict_lookup k (_model_cache st) = Some (Model h) →
  ∃ embedding st',
    generate_embedding (Model h) text st = (Ok embedding, st') ∧
    handle_request request_data st =
      (Ok (if is_None embedding
           then error_response "Failed to generate embedding"
           else {[ "embedding" := embedding ]}), st') ∧
    load_calls st' = load_calls st ∧
    _model_cache st' = _model_cache st.
Proof.
  intros Hparse Htext Hmodel Hk Hcached.
  rewrite (handle_request_fields _ _ _ _ _ Hparse Htext Hmodel).
  rewrite (load_model_hit _ _ _ _ Hk Hcached). simpl.
  destruct (generate_embedding_returns (Model h) text st)
    as (embedding & st' & -> & _ & Hcache & Hcalls & _).
  exists embedding, st'. by destruct (is_None embedding).
Qed.

(** C4, as the code has it.  A model identifier found in the cache is
    answered with the cached object and nothing else happens: no load, no
    change of state.  Hence, of two successive requests for one
    identifier that is not cached yet, when the load of the first
    succeeds (the loader returns a model and [torch.set_num_threads] does
    not raise), the first loads exactly once and stores the model, the
    second loads nothing and uses the model that the first stored.  This
    holds of two calls of [load_model] and of two lines handled by
    [handle_request], whatever their texts. *)
Theorem cached_model_is_reused :
  (∀ (model_name : json) (k : hkey) (v : value) (st : state),
     py_hash model_name = Ok k →
     dict_lookup k (_model_cache st) = Some v →
     load_model model_name st = (Ok v, st))
  ∧
  (∀ (model_name : json) (k : hkey) (h : handle) (w w' : world) (st : state),
     py_hash model_name = Ok k →
     dict_lookup k (_model_cache st) = None →
     SentenceTransformer model_name (outside st) = (Ok h, w) →
     set_num_threads_if_present w = (Ok (), w') →
     let '(r1, st1) := load_model model_name st in
     let '(r2, st2) := load_model model_name st1 in
     r1 = Ok (Model h) ∧ r2 = Ok (Model h) ∧ st2 = st1 ∧
     load_calls st2 = (load_calls st ++ [model_name])%list)
  ∧
  (∀ (first second : string) (d1 d2 : gmap string json)
     (text1 text2 model_name : json) (k : hkey) (h : handle) (w w' : world)
     (st : state),
     json_loads first = Ok (JDict d1) →
     d1 !! "text" = Some text1 →
     d1 !! "model" = Some model_name →
     json_loads second = Ok (JDict d2) →
     d2 !! "text" = Some text2 →
     d2 !! "model" = Some model_name →
     py_hash model_name = Ok k →
     dict_lookup k (_model_cache st) = None →
     SentenceTransformer model_name (outside st) = (Ok h, w) →
     set_num_threads_if_present w = (Ok (), w') →
     let st1 := (handle_request first st).2 in
     load_calls st1 = (load_calls st ++ [model_name])%list ∧
     dict_lookup k (_model_cache st1) = Some (Model h) ∧
     ∃ embedding st2,
       generate_embedding (Model h) text2 st1 = (Ok embedding, st2) ∧
       handle_request second st1 =
         (Ok (if is_None embedding
              then error_response "Failed to generate embedding"
              else {[ "embedding" := embedding ]}), st2) ∧
       load_calls st2 = load_calls st1 ∧
       _model_cache st2 = _model_cache st1).
Proof.
  split_and!; [exact load_model_hit| |].
  - intros model_name k h w w' st Hk Hmiss Hload Hthreads.
    rewrite (load_model_loads _ _ _ _ _ _ Hk Hmiss Hload Hthreads).
    rewrite (load_model_hit model_name k (Model h));
      [done|done|apply dict_lookup_insert].
  - intros first second d1 d2 text1 text2 model_name k h w w' st
      Hparse1 Htext1 Hmodel1 Hparse2 Htext2 Hmodel2 Hk Hmiss Hload Hthreads.
    assert (load_calls (handle_request first st).2 =
              (load_calls st ++ [model_name])%list
            ∧ _model_cache (handle_request first st).2 =
                <[k := Model h]> (_model_cache st)) as [Hcalls1 Hcache1].
    { rewrite (handle_request_fields _ _ _ _ _ Hparse1 Htext1 Hmodel1).
      rewrite (load_model_loads _ _ _ _ _ _ Hk Hmiss Hload Hthreads). simpl.
      match goal with
      | |- context [generate_embedding ?m ?t ?s] =>
          destruct (generate_embedding_returns m t s)
            as (embedding & st1 & -> & _ & Hcache & Hcalls & _)
      end.
      simpl in *. by destruct (is_None embedding). }
    simpl.
    assert (dict_lookup k (_model_cache (handle_request first st).2)
            = Some (Model h)) as Hcached
      by (rewrite Hcache1; apply dict_lookup_insert).
    split_and!; [done..|].
    apply (handle_request_hit _ _ _ _ _ _ _ Hparse2 Htext2 Hmodel2 Hk Hcached).
Qed.

End HandleRequest.

(** ** Stripping *)

Lemma append_String (c : ascii) (s t : string) :
  String c s +:+ t = String c (s +:+ t).
Proof. reflexivity. Qed.

Lemma append_empty (t : string) : "" +:+ t = t.
Proof. reflexivity. Qed.

Lemma all_space_app (s t : string) :
  all_space (s +:+ t) = all_space s && all_space t.
Proof.
  induction s as [|c s IH]; [done|].
  rewrite append_String. simpl. by rewrite IH, andb_assoc.
Qed.

Lemma lstrip_spec (s : string) :
  ∃ l, s = l +:+ lstrip s ∧ all_space l = true ∧
       ∀ c, first_char (lstrip s) = Some c → isspace c = false.
Proof.
  induction s as [|c s (l & Hs & Hl & Hfirst)]; simpl.
  - by exists "".
  - destruct (isspace c) eqn:Hc.
    + exists (String c l). rewrite append_String, <- Hs. simpl.
      by rewrite Hc, Hl.
    + exists "". split_and!; [done..|]. by intros ? [= <-].
Qed.

Lemma rstrip_spec (s : string) :
  ∃ r, s = rstrip s +:+ r ∧ all_space r = true ∧
       ∀ c, last_char (rstrip s) = Some c → isspace c = false.
Proof.
  induction s as [|c s (r & Hs & Hr & Hlast)]; simpl.
  - by exists "".
  - destruct (rstrip s) as [|c' kept] eqn:Hkept.
    + rewrite append_empty in Hs. subst s. destruct (isspace c) eqn:Hc.
      * exists (String c r). simpl. by rewrite Hc, Hr.
      * exists r. split_and!; [done..|]. by intros ? [= <-].
    + exists r. rewrite append_String, <- Hs. done.
Qed.

Lemma rstrip_idemp (s : string) : rstrip (rstrip s) = rstrip s.
Proof.
  induction s as [|c s IH]; simpl; [done|].
  destruct (rstrip s) as [|c' kept] eqn:Hkept.
  - destruct (isspace c) eqn:Hc; simpl; by rewrite ?Hc.
  - change (rstrip (String c (String c' kept)))
      with (match rstrip (String c' kept) with
            | EmptyString => if isspace c then EmptyString else String c EmptyString
            | kept' => String c kept'
            end).
    by rewrite IH.
Qed.

Lemma rstrip_first_char (s : string) (c : ascii) :
  first_char s = Some c → isspace c = false → first_char (rstrip s) = Some c.
Proof.
  destruct s as [|c' s]; simpl; [done|]. intros [= ->] Hc.
  destruct (rstrip s); by rewrite ?Hc.
Qed.

Lemma lstrip_no_space (s : string) :
  (∀ c, first_char s = Some c → isspace c = false) → lstrip s = s.
Proof. destruct s as [|c s]; simpl; [done|]. intros H. by rewrite (H c). Qed.

(** [strip] removes white space, and only white space, from both ends. *)
Lemma strip_spec (s : string) :
  ∃ l r, s = l +:+ strip s +:+ r ∧
         all_space l = true ∧ all_space r = true ∧
         (∀ c, first_char (strip s) = Some c → isspace c = false) ∧
         (∀ c, last_char (strip s) = Some c → isspace c = false).
Proof.
  unfold strip.
  destruct (lstrip_spec s) as (l & Hs & Hl & Hfirst).
  destruct (rstrip_spec (lstrip s)) as (r & Ht & Hr & Hlast).
  exists l, r. split_and!; [congruence|done|done| |done].
  intros c Hc. destruct (lstrip s) as [|c' t] eqn:Hstripped; [done|].
  rewrite (rstrip_first_char (String c' t) c' eq_refl (Hfirst c' eq_refl)) in Hc.
  injection Hc as <-. by apply Hfirst.
Qed.

Lemma strip_idemp (s : string) : strip (strip s) = strip s.
Proof.
  destruct (strip_spec s) as (_ & _ & _ & _ & _ & Hfirst & _).
  unfold strip at 1. rewrite (lstrip_no_space _ Hfirst).
  unfold strip. apply rstrip_idemp.
Qed.

(** A line strips to nothing exactly when it holds white space only. *)
Lemma strip_empty (s : string) : strip s = "" ↔ all_space s = true.
Proof.
  split.
  - intros Hempty. destruct (strip_spec s) as (l & r & Hs & Hl & Hr & _).
    rewrite Hs, Hempty, all_space_app, Hl. done.
  - intros Hs. unfold strip.
    assert (lstrip s = "") as ->; [|done].
    induction s as [|c s IH]; simpl in *; [done|].
    apply andb_true_iff in Hs as [-> Hs]. by apply IH.
Qed.

Section MainLoop.
Context `{L : Library}.

(** The loop looks at the stripped line only. *)
Lemma loop_body_strip (line : string) (st : state) :
  loop_body line st = loop_body (strip line) st.
Proof. unfold loop_body. by rewrite strip_idemp. Qed.

(** A line that is neither blank nor [QUIT] once stripped is handled,
    and its response is printed on one line. *)
Lemma loop_body_request (line : string) (st : state) :
  strip line ≠ "" → strip line ≠ "QUIT" →
  ∃ response st1 out,
    handle_request (strip line) st = (Ok response, st1) ∧
    json_dumps response = Ok out ∧
    loop_body line st =
      (Ok Continue,
       State (_model_cache st1) (outside st1) (load_calls st1)
             (stdout st ++ [out])).
Proof.
  intros Hblank Hquit. unfold loop_body, print_json, print.
  rewrite !bool_decide_false by done. run.
  destruct (handle_request_serializable (strip line) st)
    as (response & st1 & -> & Hser & Hout).
  pose proof (json_dumps_serializable response Hser) as Hdumps.
  destruct (json_dumps response) as [out|e] eqn:Hjson; [|done].
  exists response, st1, out. simpl. by rewrite Hout.
Qed.

(** C7, as the code has it.  A line ends the loop with nothing printed
    if and only if it is [QUIT] once its leading and trailing white space
    is stripped; any other line that is not blank once stripped is handed
    to [handle_request] and answered with exactly one line, the response
    serialised, after which the loop goes on. *)
Theorem quit_is_compared_after_strip (line : string) (st : state) :
  ((∃ st', loop_body line st = (Ok Break, st')) ↔ strip line = "QUIT")
  ∧ (strip line = "QUIT" → loop_body line st = (Ok Break, st))
  ∧ (strip line ≠ "" → strip line ≠ "QUIT" →
     ∃ response st1 out st',
       handle_request (strip line) st = (Ok response, st1) ∧
       json_dumps response = Ok out ∧
       loop_body line st = (Ok Continue, st') ∧
       stdout st' = (stdout st ++ [out])%list).
Proof.
  assert (strip line = "QUIT" → loop_body line st = (Ok Break, st)) as Hquit.
  { intros Hq. unfold loop_body. by rewrite Hq. }
  split_and!; [split| |].
  - intros [st' Hbreak].
    destruct (decide (strip line = "")) as [Hblank|Hblank].
    { unfold loop_body in Hbreak. rewrite Hblank in Hbreak. done. }
    destruct (decide (strip line = "QUIT")) as [|Hother]; [done|].
    destruct (loop_body_request line st Hblank Hother)
      as (? & ? & ? & _ & _ & Hbody).
    congruence.
  - eauto.
  - done.
  - intros Hblank Hother.
    destruct (loop_body_request line st Hblank Hother)
      as (response & st1 & out & Hreq & Hjson & Hbody).
    by eexists response, st1, out, _.
Qed.

(** [Break] ends the loop, [Continue] goes to the next line. *)
Lemma for_lines_cons (line : string) (rest : list string) (st : state) :
  for_lines (line :: rest) st =
    match loop_body line st with
    | (Ok Continue, st') => for_lines rest st'
    | (Ok Break, st') => (Ok (), st')
    | (Raise e, st') => (Raise e, st')
    end.
Proof.
  simpl. unfold mbind, M_bind.
  by destruct (loop_body line st) as [[[]|] ?].
Qed.

(** C10. Each line is stripped of its leading and trailing white space
    before anything else is done with it: the loop treats a line as it
    treats the stripped line.  A line of white space only prints nothing
    and the loop goes on with the next line; a line that is [QUIT] once
    stripped ends the loop with nothing printed, whatever follows. *)
Theorem lines_are_stripped (line : string) (rest : list string) (st : state) :
  (∃ l r, line = l +:+ strip line +:+ r ∧
          all_space l = true ∧ all_space r = true ∧
          (∀ c, first_char (strip line) = Some c → isspace c = false) ∧
          (∀ c, last_char (strip line) = Some c → isspace c = false))
  ∧ for_lines (line :: rest) st = for_lines (strip line :: rest) st
  ∧ (all_space line = true → for_lines (line :: rest) st = for_lines rest st)
  ∧ (strip line = "QUIT" → for_lines (line :: rest) st = (Ok (), st)).
Proof.
  split_and!.
  - apply strip_spec.
  - by rewrite !for_lines_cons, (loop_body_strip line).
  - intros Hspace. apply strip_empty in Hspace.
    rewrite for_lines_cons. unfold loop_body. by rewrite Hspace.
  - intros Hquit. rewrite for_lines_cons. unfold loop_body. by rewrite Hquit.
Qed.

End MainLoop.

(** ** Rounding to a floating-point format

    [binary_round] is the Standard Library's: it aligns the mantissa,
    shifts it right to the precision of the format, rounds to nearest
    even and shifts once more if the rounding carried. *)

Section Rounding.
#[local] Open Scope Z_scope.
Variables prec emax : Z.
Hypothesis prec_pos : 0 < prec.

#[local] Abbreviation fexp := (SpecFloat.fexp prec emax).

Lemma fexp_mono (x y : Z) : x ≤ y → fexp x ≤ fexp y.
Proof. unfold SpecFloat.fexp. lia. Qed.

Lemma fexp_ge_emin (x : Z) : emin prec emax ≤ fexp x.
Proof. unfold SpecFloat.fexp. lia. Qed.

Lemma fexp_below (x : Z) : x ≤ fexp x → fexp x = emin prec emax.
Proof using prec_pos. unfold SpecFloat.fexp. lia. Qed.

Lemma Zdigits2_nonneg (m : Z) : 0 ≤ Zdigits2 m.
Proof. by destruct m. Qed.

Lemma Zdigits2_div2 (m : Z) :
  0 ≤ m → Zdigits2 (Z.div2 m) = Z.max 0 (Zdigits2 m - 1).
Proof. destruct m as [|[p|p|]|]; simpl; lia. Qed.

Lemma digits2_pos_size (p : positive) : digits2_pos p = Pos.size p.
Proof. induction p; simpl; congruence. Qed.

Lemma Zdigits2_log2 (m : Z) : 0 < m → Zdigits2 m = Z.log2 m + 1.
Proof.
  destruct m as [|p|]; try done. intros _. simpl.
  rewrite digits2_pos_size. destruct p; simpl; lia.
Qed.

Lemma Zdigits2_mono (m m' : Z) : 0 ≤ m ≤ m' → Zdigits2 m ≤ Zdigits2 m'.
Proof.
  intros [Hm Hle]. destruct (decide (m = 0)) as [->|]; [apply Zdigits2_nonneg|].
  rewrite !Zdigits2_log2 by lia.
  pose proof (Z.log2_le_mono m m' Hle). lia.
Qed.

Lemma iter_pos_iter {A} (f : A → A) (p : positive) (x : A) :
  SpecFloat.iter_pos f p x = Pos.iter f x p.
Proof.
  revert x. induction p as [p IH|p IH|]; intros x; simpl; [|by rewrite !IH|done].
  rewrite !IH.
  change (Pos.iter f x p~1) with (f (Pos.iter f (Pos.iter f x p) p)).
  by rewrite !Pos.iter_swap.
Qed.

Lemma shr_1_m (mrs : shr_record) :
  0 ≤ shr_m mrs → shr_m (shr_1 mrs) = Z.div2 (shr_m mrs).
Proof. destruct mrs as [[|[p|p|]|p] r s]; simpl; done. Qed.

Lemma shr_iter (mrs : shr_record) (k : positive) :
  0 ≤ shr_m mrs →
  0 ≤ shr_m (Pos.iter shr_1 mrs k) ∧
  Zdigits2 (shr_m (Pos.iter shr_1 mrs k)) = Z.max 0 (Zdigits2 (shr_m mrs) - Zpos k).
Proof.
  intros Hm. induction k as [|k [IH0 IH]] using Pos.peano_ind.
  - simpl. rewrite shr_1_m by done. split; [by apply Z.div2_nonneg|].
    by apply Zdigits2_div2.
  - rewrite Pos.iter_succ, shr_1_m by done. split; [by apply Z.div2_nonneg|].
    rewrite Zdigits2_div2, IH by done. lia.
Qed.

Lemma shr_fexp_spec (m e : Z) (l : location) :
  0 ≤ m → e ≤ fexp (Zdigits2 m + e) →
  let '(mrs, e') := shr_fexp prec emax m e l in
  0 ≤ shr_m mrs ∧ e' = fexp (Zdigits2 m + e) ∧
  Zdigits2 (shr_m mrs) = Z.max 0 (Zdigits2 m - (e' - e)).
Proof.
  intros Hm He. unfold shr_fexp, shr.
  assert (shr_m (shr_record_of_loc m l) = m) as Hrec by (by destruct l as [|[]]).
  destruct (fexp (Zdigits2 m + e) - e) as [|k|k] eqn:Hn; [| |lia].
  - rewrite Hrec. split_and!; [done|lia|]. pose proof (Zdigits2_nonneg m). lia.
  - rewrite iter_pos_iter.
    destruct (shr_iter (shr_record_of_loc m l) k) as [H0 Hd]; [by rewrite Hrec|].
    rewrite Hrec in Hd. split_and!; [done|lia|]. rewrite Hd. lia.
Qed.

Lemma round_nearest_even_bounds (m : Z) (l : location) :
  m ≤ round_nearest_even m l ≤ m + 1.
Proof. destruct l as [|[]]; simpl; try lia. destruct (Z.even m); lia. Qed.

(** Rounding a mantissa that sits at or below its exponent yields a
    number of the format. *)
Lemma binary_round_aux_valid (s : bool) (m e : Z) (l : location) :
  0 ≤ m → e ≤ fexp (Zdigits2 m + e) →
  valid_binary prec emax (binary_round_aux prec emax s m e l) = true.
Proof using prec_pos.
  intros Hm He. unfold binary_round_aux.
  pose proof (shr_fexp_spec m e l Hm He) as H1.
  destruct (shr_fexp prec emax m e l) as [mrs1 e1].
  destruct H1 as (Hm1 & He1 & Hd1).
  set (m2 := round_nearest_even (shr_m mrs1) (loc_of_shr_record mrs1)).
  pose proof (round_nearest_even_bounds (shr_m mrs1) (loc_of_shr_record mrs1))
    as Hm2. fold m2 in Hm2.
  assert (e1 ≤ fexp (Zdigits2 m2 + e1)) as He2.
  { destruct (decide (shr_m mrs1 = 0)) as [Hzero|Hpos].
    - rewrite Hzero in Hd1. simpl in Hd1.
      assert (e1 = emin prec emax) as ->; [|apply fexp_ge_emin].
      rewrite He1. apply fexp_below. lia.
    - transitivity (fexp (Zdigits2 (shr_m mrs1) + e1)).
      + assert (0 < Zdigits2 (shr_m mrs1)).
        { rewrite Zdigits2_log2 by lia. pose proof (Z.log2_nonneg (shr_m mrs1)). lia. }
        replace (Zdigits2 (shr_m mrs1) + e1) with (Zdigits2 m + e) by lia. lia.
      + apply fexp_mono. pose proof (Zdigits2_mono (shr_m mrs1) m2). lia. }
  pose proof (shr_fexp_spec m2 e1 loc_Exact ltac:(lia) He2) as H2.
  destruct (shr_fexp prec emax m2 e1 loc_Exact) as [mrs2 e2].
  destruct H2 as (Hm3 & He3 & Hd3).
  destruct (shr_m mrs2) as [|m3|] eqn:Hm3'; [done| |done].
  destruct (e2 <=? emax - prec) eqn:Hle; [|done].
  simpl. unfold bounded, canonical_mantissa. rewrite Hle, andb_true_r.
  apply Z.eqb_eq. simpl in Hd3.
  replace (Z.pos (digits2_pos m3) + e2) with (Zdigits2 m2 + e1) by lia. lia.
Qed.

Lemma digits2_pos_iter_xO (m d : positive) :
  Zpos (digits2_pos (Pos.iter xO m d)) = Zpos (digits2_pos m) + Zpos d.
Proof.
  induction d as [|d IH] using Pos.peano_ind; simpl; [lia|].
  rewrite Pos.iter_succ. simpl. lia.
Qed.

Lemma shl_align_spec (m : positive) (e e' : Z) :
  let '(mz, ez) := shl_align m e e' in
  ez ≤ e' ∧ Zpos (digits2_pos mz) + ez = Zpos (digits2_pos m) + e.
Proof.
  unfold shl_align. destruct (e' - e) as [|d|d] eqn:Hd; [lia|lia|].
  rewrite digits2_pos_iter_xO. lia.
Qed.

(** The result of rounding is a number of the format. *)
Lemma binary_round_valid (s : bool) (m : positive) (e : Z) :
  valid_binary prec emax (binary_round prec emax s m e) = true.
Proof using prec_pos.
  unfold binary_round.
  pose proof (shl_align_spec m e (fexp (Zpos (digits2_pos m) + e))) as Halign.
  destruct (shl_align m e _) as [mz ez]. destruct Halign as [Hle Hd].
  apply binary_round_aux_valid; [done|]. simpl. by rewrite Hd.
Qed.

(** Rounding leaves a number of the format as it is. *)
Lemma binary_round_id (s : bool) (m : positive) (e : Z) :
  bounded prec emax m e = true →
  binary_round prec emax s m e = S754_finite s m e.
Proof.
  unfold bounded, canonical_mantissa. intros [Hcan Hle]%andb_true_iff.
  apply Z.eqb_eq in Hcan.
  unfold binary_round, shl_align. rewrite Hcan, Z.sub_diag.
  unfold binary_round_aux, shr_fexp, shr. simpl. rewrite Hcan, Z.sub_diag.
  simpl. rewrite Hcan, Z.sub_diag. simpl. by rewrite Hle.
Qed.

Lemma binary_round_aux_id (s : bool) (m : positive) (e : Z) :
  bounded prec emax m e = true →
  binary_round_aux prec emax s (Zpos m) e loc_Exact = S754_finite s m e.
Proof.
  unfold bounded, canonical_mantissa. intros [Hcan Hle]%andb_true_iff.
  apply Z.eqb_eq in Hcan.
  unfold binary_round_aux, shr_fexp, shr. simpl. rewrite Hcan, Z.sub_diag.
  simpl. rewrite Hcan, Z.sub_diag. simpl. by rewrite Hle.
Qed.

Lemma shr_iter_xO (m d : positive) :
  Pos.iter shr_1 (Build_shr_record (Zpos (Pos.iter xO m d)) false false) d =
  Build_shr_record (Zpos m) false false.
Proof.
  induction d as [|d IH] using Pos.peano_ind; [done|].
  by rewrite !Pos.iter_succ, <- Pos.iter_swap.
Qed.
End Rounding.

Section Binary32.
#[local] Open Scope Z_scope.

(** Widening a binary32 number to binary64 shifts its mantissa to the
    left and changes nothing else. *)
Lemma float64_of_binary32 (s : bool) (m : positive) (e : Z) :
  bounded 24 128 m e = true →
  ∃ d, e - SpecFloat.fexp 53 1024 (Zpos (digits2_pos m) + e) = Zpos d ∧
       binary_round 53 1024 s m e =
         S754_finite s (Pos.iter xO m d)
                     (SpecFloat.fexp 53 1024 (Zpos (digits2_pos m) + e)).
Proof.
  intros [Hcan Hle]%andb_true_iff.
  apply Z.eqb_eq in Hcan. apply Z.leb_le in Hle.
  unfold binary_round, shl_align.
  set (D := Zpos (digits2_pos m) + e) in *.
  destruct (SpecFloat.fexp 53 1024 D - e) as [|d|d] eqn:Hd;
    [unfold SpecFloat.fexp, emin in *; lia..|].
  exists d. split; [lia|]. apply binary_round_aux_id.
  unfold bounded, canonical_mantissa.
  replace (Zpos (digits2_pos (Pos.iter xO m d)) + SpecFloat.fexp 53 1024 D)
    with D by (rewrite digits2_pos_iter_xO; lia).
  rewrite Z.eqb_refl. simpl. apply Z.leb_le.
  unfold SpecFloat.fexp, emin in *. lia.
Qed.

(** A binary32 number widened to binary64 and rounded back to binary32
    is the number itself. *)
Lemma float32_of_float64_of (x : spec_float) :
  valid_binary 24 128 x = true →
  float32_of_float (float64_of_float x) = x.
Proof.
  destruct x as [| | |s m e]; try done. simpl. intros Hvalid.
  destruct (float64_of_binary32 s m e Hvalid) as (d & Hd & Hwide).
  pose proof Hvalid as [Hcan _]%andb_true_iff. apply Z.eqb_eq in Hcan.
  unfold float64_of_float, float32_of_float, round_to. rewrite Hwide.
  set (D := Zpos (digits2_pos m) + e) in *.
  assert (Zpos (digits2_pos (Pos.iter xO m d)) + SpecFloat.fexp 53 1024 D = D)
    as HD by (rewrite digits2_pos_iter_xO; lia).
  unfold binary_round, shl_align. rewrite HD, Hcan, Hd.
  unfold binary_round_aux at 1, shr_fexp at 1, shr. simpl Zdigits2.
  rewrite HD, Hcan, Hd. simpl shr_record_of_loc.
  rewrite iter_pos_iter, shr_iter_xO. simpl loc_of_shr_record.
  simpl round_nearest_even. simpl shr_m.
  replace (SpecFloat.fexp 53 1024 D + Z.pos d) with e by lia.
  unfold shr_fexp, shr. simpl Zdigits2. fold D. rewrite Hcan, Z.sub_diag.
  simpl. apply andb_true_iff in Hvalid as [_ Hle].
  by rewrite Hle.
Qed.

Lemma float32_of_float_valid (x : spec_float) :
  valid_binary 24 128 (float32_of_float x) = true.
Proof.
  destruct x as [| | |s m e]; try done. by apply binary_round_valid.
Qed.

Lemma float32_of_Z_valid (z : Z) : valid_binary 24 128 (float32_of_Z z) = true.
Proof. destruct z; try done; by apply binary_round_valid. Qed.

(** A binary32 number, widened, is a Python float of 32-bit precision. *)
Lemma is_float32_widened (x : spec_float) :
  valid_binary 24 128 x = true → is_float32 (float64_of_float x) = true.
Proof.
  intros Hvalid. unfold is_float32, to_float32.
  by rewrite float32_of_float64_of, bool_decide_true.
Qed.

Lemma scalar_float32_is_float32 (x : scalar) :
  is_float32 (scalar_float32 x) = true.
Proof.
  destruct x as [b|z|x]; simpl; apply is_float32_widened;
    auto using float32_of_float_valid, float32_of_Z_valid.
Qed.

End Binary32.

Lemma ndarray_nested_ind (P : ndarray → Prop) :
  (∀ x, P (NdItem x)) →
  (∀ l, Forall P l → P (NdAxis l)) →
  ∀ a, P a.
Proof.
  intros Hitem Haxis. fix IH 1. intros [x|l]; [apply Hitem|].
  apply Haxis. induction l as [|a l IHl]; constructor; [apply IH|apply IHl].
Qed.

(** Whatever the array holds, what [astype(np.float32)] and [tolist()]
    make of it holds floats of 32-bit precision only. *)
Lemma astype_float32_all_float32 (a : ndarray) :
  all_float32 (ndarray_tolist (astype_float32 a)) = true.
Proof.
  induction a as [x|l IH] using ndarray_nested_ind; simpl.
  - apply scalar_float32_is_float32.
  - induction IH as [|a l Ha _ IHl]; simpl; [done|]. by rewrite Ha, IHl.
Qed.


Section Embedding.
Context `{L : Library}.

(** An array that [encode] returns is converted and listed. *)
Lemma generate_embedding_ndarray
    (h : handle) (text : json) (a : ndarray) (w : world) (st : state) :
  encode h text (outside st) = (Ok (Ndarray a), w) →
  generate_embedding (Model h) text st =
    (Ok (Plain (ndarray_tolist (astype_float32 a))),
     State (_model_cache st) w (load_calls st) (stdout st)).
Proof.
  intros Hencode. unfold generate_embedding, call_encode, call_world. run.
  by rewrite Hencode.
Qed.

(** Another object with a [tolist] method is listed as it is. *)
Lemma generate_embedding_object
    (h : handle) (text : json) (cls : string) (l : json) (w : world)
    (st : state) :
  encode h text (outside st) = (Ok (Object cls (Some l)), w) →
  generate_embedding (Model h) text st =
    (Ok (Plain l), State (_model_cache st) w (load_calls st) (stdout st)).
Proof.
  intros Hencode. unfold generate_embedding, call_encode, call_world. run.
  by rewrite Hencode.
Qed.


(** C8, as the code has it.  When the model returns a numpy array,
    [generate_embedding] converts it to float32 before it lists it: the
    list returned holds floats of 32-bit precision only.  (Any other
    object is listed as it is.) *)
Theorem ndarray_embedding_is_float32
    (h : handle) (text : json) (a : ndarray) (w : world) (st : state) :
  encode h text (outside st) = (Ok (Ndarray a), w) →
  ∃ embedding st',
    generate_embedding (Model h) text st = (Ok (Plain embedding), st') ∧
    embedding = ndarray_tolist (astype_float32 a) ∧
    all_float32 embedding = true.
Proof.
  intros Hencode. rewrite (generate_embedding_ndarray _ _ _ _ _ Hencode).
  eexists _, _. split_and!; [done..|]. apply astype_float32_all_float32.
Qed.

End Embedding.

(** * The properties on the test double *)

Section OnTheDouble.
Import Stub.

Lemma embedding_is_no_error (v : value) (msg : string) :
  ({[ "embedding" := v ]} : gmap string value) ≠ {[ "error" := Str msg ]}.
Proof.
  intros Heq. apply (f_equal (λ d : gmap string value, d !! "error")) in Heq.
  by rewrite lookup_singleton_eq, lookup_singleton_ne in Heq.
Qed.

(** C1 fails on the code.  The loader does not know [no-such-model] and
    raises; the response is not the error that names the model but an
    [embedding] whose value is the pair [(None, message)] that
    [generate_embedding] made of the pair that [load_model] returned. *)
Theorem failed_load_is_answered_with_an_embedding :
  handle_request (request_line "hello" "no-such-model") st0 =
    (Ok {[ "embedding" :=
             Tuple [None_; Str "'tuple' object has no attribute 'encode'"] ]},
     State (L:=lib) ∅ () [JStr "no-such-model"] [])
  ∧ ({[ "embedding" :=
          Tuple [None_; Str "'tuple' object has no attribute 'encode'"] ]}
       : gmap string value)
    ≠ {[ "error" := Str "Failed to load model: no-such-model" ]}.
Proof.
  split; [|apply embedding_is_no_error].
  reflexivity.
Qed.

(** C2 fails on the code in its first half.  The inference of
    [broken-model] raises; nothing is raised past [generate_embedding],
    but the response is not the error: it is an [embedding] whose value
    is the pair [(None, message)]. *)
Theorem failed_inference_is_answered_with_an_embedding :
  handle_request (request_line "hello" "broken-model") st0 =
    (Ok {[ "embedding" := Tuple [None_; Str "inference failed"] ]},
     State (L:=lib) {[ KStr "broken-model" := Model 3%N ]} () [JStr "broken-model"] [])
  ∧ ({[ "embedding" := Tuple [None_; Str "inference failed"] ]}
       : gmap string value)
    ≠ {[ "error" := Str "Failed to generate embedding" ]}.
Proof.
  split; [|apply embedding_is_no_error].
  reflexivity.
Qed.

Lemma load_failure_leaves_cache_witness :
  _model_cache (load_model (JStr "no-such-model") st0).2 = _model_cache st0.
Proof.
  apply (load_failure_leaves_cache (L:=lib) (JStr "no-such-model") st0
           (Exn (OtherException "OSError") "model not found") ()).
  reflexivity.
Defined.

(** C4 as it is written fails: two successive requests for a model that
    does not load call the loader twice, whether the requests are calls
    of [load_model] or lines handled by [handle_request]. *)
Lemma failed_load_is_repeated :
  ¬ (List.length
       (load_calls
          (load_model (JStr "no-such-model")
             (load_model (JStr "no-such-model") st0).2).2) ≤ 1)%nat
  ∧ load_calls
      (handle_request (request_line "hello" "no-such-model")
         (handle_request (request_line "hello" "no-such-model") st0).2).2
    = [JStr "no-such-model"; JStr "no-such-model"].
Proof. split; [vm_compute; lia|reflexivity]. Qed.

Lemma cached_model_is_reused_witness :
  (let '(r1, st1) := load_model (JStr "test-model") st0 in
   let '(r2, st2) := load_model (JStr "test-model") st1 in
   r1 = Ok (Model 1%N) ∧ r2 = Ok (Model 1%N) ∧ st2 = st1 ∧
   load_calls st2 = [JStr "test-model"])
  ∧
  (let st1 := (handle_request (request_line "hello" "test-model") st0).2 in
   load_calls st1 = [JStr "test-model"] ∧
   dict_lookup (KStr "test-model") (_model_cache st1) = Some (Model 1%N) ∧
   ∃ embedding st2,
     generate_embedding (Model 1%N) (JStr "hello") st1 = (Ok embedding, st2) ∧
     handle_request (request_line "hello" "test-model") st1 =
       (Ok (if is_None embedding
            then error_response "Failed to generate embedding"
            else {[ "embedding" := embedding ]}), st2) ∧
     load_calls st2 = load_calls st1 ∧
     _model_cache st2 = _model_cache st1).
Proof.
  destruct (cached_model_is_reused (L:=lib)) as (_ & Hcalls & Hrequests).
  split.
  - apply (Hcalls (JStr "test-model") (KStr "test-model") 1%N () () st0);
      reflexivity.
  - apply (Hrequests (request_line "hello" "test-model")
             (request_line "hello" "test-model")
             (match request "hello" "test-model" with JDict d => d | _ => ∅ end)
             (match request "hello" "test-model" with JDict d => d | _ => ∅ end)
             (JStr "hello") (JStr "hello") (JStr "test-model")
             (KStr "test-model") 1%N () () st0);
      reflexivity.
Defined.



Lemma missing_field_response_witness :
  handle_request (model_only_line "test-model") st0 =
    (Ok {[ "error" := Str "Missing 'text' field in request" ]}, st0)
  ∧ handle_request "{}" st0 =
    (Ok {[ "error" := Str "Missing 'text' field in request" ]}, st0)
  ∧ handle_request (text_only_line "hello") st0 =
    (Ok {[ "error" := Str "Missing 'model' field in request" ]}, st0).
Proof.
  split_and!.
  - apply (missing_field_response (L:=lib) (model_only_line "test-model")
             {[ "model" := JStr "test-model" ]} st0);
      reflexivity.
  - apply (missing_field_response (L:=lib) "{}" ∅ st0); reflexivity.
  - apply (missing_field_response (L:=lib) (text_only_line "hello")
             {[ "text" := JStr "hello" ]} st0);
      [reflexivity|by eexists|reflexivity].
Defined.

(** C7 as it is written fails: this line is not [QUIT], and it ends the
    loop with nothing printed. *)
Lemma padded_QUIT_ends_the_loop :
  loop_body "  QUIT  " st0 = (Ok Break, st0) ∧ "  QUIT  " ≠ "QUIT".
Proof. split; [reflexivity|done]. Qed.

Lemma quit_is_compared_after_strip_witness :
  loop_body "  QUIT  " st0 = (Ok Break, st0)
  ∧ ∃ response st1 out st',
      handle_request (strip " {} ") st0 = (Ok response, st1) ∧
      json_dumps response = Ok out ∧
      loop_body " {} " st0 = (Ok Continue, st') ∧
      stdout st' = (stdout st0 ++ [out])%list.
Proof.
  split.
  - apply (quit_is_compared_after_strip (L:=lib) "  QUIT  " st0). reflexivity.
  - apply (quit_is_compared_after_strip (L:=lib) " {} " st0); by vm_compute.
Defined.

(** C8 as it is written fails: the tensor that [tensor-model] returns is
    no numpy array, so it is listed as it is, and the 0.1 it holds is a
    binary64 number that no binary32 number equals. *)
Lemma tensor_is_not_converted :
  generate_embedding (Model 2%N) (JStr "hello") st0 =
    (Ok (Plain (JList [JFloat f0_1])), st0)
  ∧ all_float32 (JList [JFloat f0_1]) = false.
Proof. split; [reflexivity|by vm_compute]. Qed.

Lemma ndarray_embedding_is_float32_witness :
  ∃ embedding st',
    generate_embedding (Model 1%N) (JStr "hello") st0 = (Ok (Plain embedding), st') ∧
    embedding =
      ndarray_tolist
        (astype_float32 (NdAxis [NdItem (NpFloat f0_1); NdItem (NpFloat f0_2)])) ∧
    all_float32 embedding = true.
Proof.
  apply (ndarray_embedding_is_float32 (L:=lib) 1%N (JStr "hello")
           (NdAxis [NdItem (NpFloat f0_1); NdItem (NpFloat f0_2)]) () st0).
  reflexivity.
Defined.

(** A session from start to end: the ready line, a request answered, a
    blank line skipped, a line that is no JSON answered with an error,
    and [QUIT], after which nothing is read. *)
Example session :
  main [request_line "hello" "test-model" +:+ nl; nl; "not json" +:+ nl;
        "QUIT" +:+ nl; "{}" +:+ nl] st0 =
    (Ok (),
     State (L:=lib) {[ KStr "test-model" := Model 1%N ]} () [JStr "test-model"]
       ["{" +:+ dq +:+ "status" +:+ dq +:+ ": " +:+ dq +:+ "ready" +:+ dq +:+ "}";
        "{" +:+ dq +:+ "embedding" +:+ dq +:+ ": [...]}";
        "{" +:+ dq +:+ "error" +:+ dq +:+ ": " +:+ dq +:+
          "Invalid JSON input: Expecting value: line 1 column 1 (char 0)"
          +:+ dq +:+ "}"]).
Proof. reflexivity. Qed.

Lemma lines_are_stripped_witness :
  for_lines ["   "; "  QUIT  "; "{}"] st0 = for_lines ["  QUIT  "; "{}"] st0
  ∧ for_lines ["  QUIT  "; "{}"] st0 = (Ok (), st0).
Proof.
  split.
  - destruct (lines_are_stripped (L:=lib) "   " ["  QUIT  "; "{}"] st0)
      as (_ & _ & Hblank & _).
    apply Hblank. reflexivity.
  - destruct (lines_are_stripped (L:=lib) "  QUIT  " ["{}"] st0)
      as (_ & _ & _ & Hquit).
    apply Hquit. reflexivity.
Defined.

End OnTheDouble.

(** * Further properties of the server *)

(** The cache holds loaded models and nothing else. *)
Definition is_model (v : value) : bool :=
  match v with Model _ => true | _ => false end.

Definition cache_of_models (cache : gmap hkey value) : Prop :=
  map_Forall (λ _ v, is_model v = true) cache.

(** The lines of the input that are handed to [handle_request], as they
    are handed to it: stripped, the blank ones left out, up to the first
    [QUIT]. *)
Fixpoint handled (stdin : list string) : list string :=
  match stdin with
  | [] => []
  | line :: rest =>
      let line := strip line in
      if bool_decide (line = "") then handled rest
      else if bool_decide (line = "QUIT") then []
      else line :: handled rest
  end.

Section Requests.
Context `{L : Library}.

(** ** The request that is not answered by the model *)

(** X1. When [json.loads] raises, nothing else is done: no load, no
    change of state.  A [JSONDecodeError] is answered with exactly the
    invalid-JSON error that ends in the parser's message, any other
    exception with the unexpected-error response. *)
Theorem unparsed_request_response
    (request_data : string) (e : exn) (st : state) :
  json_loads request_data = Raise e →
  handle_request request_data st =
    (Ok {[ "error" :=
             Str ((if is_JSONDecodeError e
                   then "Invalid JSON input: "
                   else "Unexpected error: ") +:+ exn_str e) ]},
     st).
Proof.
  intros Hparse. unfold handle_request. rewrite Hparse. run.
  by destruct (is_JSONDecodeError e).
Qed.

(** A request ends before the model is asked for, with an error and the
    state as it was, or it is a dict that holds both fields. *)
Lemma handle_request_early (request_data : string) (st : state) :
  (∃ msg, handle_request request_data st = (Ok (error_response msg), st) ∧
          ((∃ detail, msg = "Invalid JSON input: " +:+ detail) ∨
           msg = "Missing 'text' field in request" ∨
           msg = "Missing 'model' field in request" ∨
           (∃ detail, msg = "Unexpected error: " +:+ detail)))
  ∨ (∃ d text model_name,
       json_loads request_data = Ok (JDict d) ∧
       d !! "text" = Some text ∧ d !! "model" = Some model_name).
Proof.
  unfold handle_request. run.
  destruct (json_loads request_data) as [request|e]; simpl.
  2: { left. destruct (is_JSONDecodeError e); simpl; eauto 10. }
  destruct request as [|b|z|x|s|l|d]; simpl; try (left; by eauto 10).
  - destruct (is_substring "text" s); simpl; [|left; by eauto 10].
    destruct (is_substring "model" s); simpl; left; by eauto 10.
  - destruct (existsb (is_str "text") l); simpl; [|left; by eauto 10].
    destruct (existsb (is_str "model") l); simpl; left; by eauto 10.
  - destruct (d !! "text") as [text|] eqn:Htext; simpl; [|left; by eauto 10].
    destruct (d !! "model") as [model_name|] eqn:Hmodel; simpl;
      [|left; by eauto 10].
    right. by exists d, text, model_name.
Qed.

(** X2. A request that is JSON but no object (null, a number, a string,
    an array, also one that holds the words text and model) never reaches
    the loader or the model: it is answered with an [error] and the state
    is as it was. *)
Theorem non_object_request_is_refused
    (request_data : string) (request : json) (st : state) :
  json_loads request_data = Ok request →
  (∀ d, request ≠ JDict d) →
  ∃ msg, handle_request request_data st = (Ok {[ "error" := Str msg ]}, st).
Proof.
  intros Hparse Hnodict.
  destruct (handle_request_early request_data st)
    as [(msg & Hrun & _)|(d & _ & _ & Hdict & _)]; [by eauto|].
  rewrite Hparse in Hdict. injection Hdict as ->. by destruct (Hnodict d).
Qed.

End Requests.

Section Cache.
Context `{L : Library}.

(** ** What [load_model] returns and keeps *)

(** A model identifier that cannot be hashed fails at the cache look-up:
    the loader is not called and the state does not change. *)
Lemma unhashable_model_name (model_name : json) (e : exn) (st : state) :
  py_hash model_name = Raise e →
  load_model model_name st = (Ok (Tuple [None_; Str (exn_str e)]), st).
Proof.
  intros Hhash. unfold load_model, cache_contains. run. by rewrite Hhash.
Qed.

(** X3. A request whose [model] field is a list or a dict, which cannot
    be a key of the cache: the loader is not called and the state does
    not change; the failure pair that [load_model] returns is passed on
    as if it were a model, and the response is an [embedding] that holds
    the pair reporting that a tuple has no [encode]. *)
Theorem unhashable_model_request
    (request_data : string) (d : gmap string json) (text model_name : json)
    (st : state) :
  json_loads request_data = Ok (JDict d) →
  d !! "text" = Some text →
  d !! "model" = Some model_name →
  (∃ l, model_name = JList l) ∨ (∃ m, model_name = JDict m) →
  handle_request request_data st =
    (Ok {[ "embedding" :=
             Tuple [None_; Str "'tuple' object has no attribute 'encode'"] ]},
     st).
Proof.
  intros Hparse Htext Hmodel Hunhashable.
  assert (∃ e, py_hash model_name = Raise e) as [e Hhash]
    by (destruct Hunhashable as [[? ->]|[? ->]]; by eexists).
  apply (failed_load_response _ _ _ _ _ _ _ Hparse Htext Hmodel
           (unhashable_model_name _ _ _ Hhash)).
Qed.

(** X4. The model is cached after [torch.set_num_threads] only: when
    that call raises, the model that was just loaded is dropped, the
    cache stays as it was and the failure pair is returned. *)
Theorem set_num_threads_failure_drops_model
    (model_name : json) (k : hkey) (h : handle) (e : exn) (w w' : world)
    (set_num_threads : Z → world → result unit * world) (st : state) :
  torch_set_num_threads = Some set_num_threads →
  py_hash model_name = Ok k →
  dict_lookup k (_model_cache st) = None →
  SentenceTransformer model_name (outside st) = (Ok h, w) →
  set_num_threads 1%Z w = (Raise e, w') →
  load_model model_name st =
    (Ok (Tuple [None_; Str (exn_str e)]),
     State (_model_cache st) w' (load_calls st ++ [model_name]) (stdout st)).
Proof.
  intros Htorch Hk Hmiss Hload Hraise.
  unfold load_model, cache_contains, call_SentenceTransformer, call_world. run.
  rewrite Hk. simpl. rewrite Hmiss. simpl. rewrite Hload. simpl.
  rewrite Htorch. simpl. by rewrite Hraise.
Qed.

(** X5. Whenever [load_model] returns a model, that model is in the
    cache under the identifier it was asked for: a load is stored before
    it is returned. *)
Theorem returned_model_is_cached
    (model_name : json) (k : hkey) (h : handle) (st st' : state) :
  py_hash model_name = Ok k →
  load_model model_name st = (Ok (Model h), st') →
  dict_lookup k (_model_cache st') = Some (Model h).
Proof.
  intros Hk Hrun. pose proof (load_model_cases model_name st) as Hcases.
  rewrite Hrun in Hcases.
  destruct Hcases as [Hhit|[Hfail|Hloaded]].
  - destruct Hhit as (k' & v & Hk' & Hv & [= <-] & ->). congruence.
  - by destruct Hfail as ((msg & [=]) & _).
  - destruct Hloaded as (k' & h' & Hk' & _ & [= <-] & -> & _).
    assert (k' = k) as -> by congruence. by apply dict_lookup_insert.
Qed.

(** What is in the cache stays in it, with the same object. *)
Lemma load_model_keeps (model_name : json) (k : hkey) (v : value) (st : state) :
  dict_lookup k (_model_cache st) = Some v →
  dict_lookup k (_model_cache (load_model model_name st).2) = Some v.
Proof.
  intros Hcached. pose proof (load_model_cases model_name st) as Hcases.
  destruct (load_model model_name st) as [r st']. simpl.
  destruct Hcases as [(_&_&_&_&_&->)|[(_&_&->&_)|Hloaded]]; [done..|].
  destruct Hloaded as (k' & h & _ & Hmiss & _ & -> & _).
  assert (k ≠ k') by congruence.
  unfold dict_lookup in *. by rewrite lookup_insert_ne.
Qed.

Lemma load_model_keeps_models (model_name : json) (st : state) :
  cache_of_models (_model_cache st) →
  cache_of_models (_model_cache (load_model model_name st).2).
Proof.
  intros Hinv. pose proof (load_model_cases model_name st) as Hcases.
  destruct (load_model model_name st) as [r st']. simpl.
  destruct Hcases as [(_&_&_&_&_&->)|[(_&_&->&_)|Hloaded]]; [done..|].
  destruct Hloaded as (k' & h & _ & _ & _ & -> & _).
  by apply map_Forall_insert_2.
Qed.

(** With models only in the cache, [load_model] returns a model or the
    failure pair; it never returns [None]. *)
Lemma load_model_never_None (model_name : json) (st : state) :
  cache_of_models (_model_cache st) →
  ∃ v, (load_model model_name st).1 = Ok v ∧ is_None v = false.
Proof.
  intros Hinv. pose proof (load_model_cases model_name st) as Hcases.
  destruct (load_model model_name st) as [r st']. simpl.
  destruct Hcases as [Hhit|[Hfail|Hloaded]].
  - destruct Hhit as (k & v & _ & Hv & -> & _). exists v. split; [done|].
    apply dict_lookup_Some in Hv. apply Hinv in Hv. by destruct v.
  - destruct Hfail as ((msg & ->) & _). by eexists.
  - destruct Hloaded as (k & h & _ & _ & -> & _). by eexists.
Qed.

(** X6. [generate_embedding] returns [None] in one case only: the model
    returned an object that is no numpy array and whose [tolist()]
    returns [None].  An inference that raises never makes it return
    [None]. *)
Theorem generate_embedding_None
    (model : value) (text : json) (st st' : state) :
  generate_embedding model text st = (Ok None_, st') →
  ∃ h cls w, model = Model h ∧
             encode h text (outside st) = (Ok (Object cls (Some JNone)), w).
Proof.
  unfold generate_embedding, call_encode, call_tolist, call_world. run.
  destruct model as [[]| |h| |]; simpl; try done.
  destruct (encode h text (outside st)) as [[out|e] w] eqn:Hencode; simpl;
    [|done].
  destruct out as [j|l|h'|a|cls [l|]]; simpl; try done.
  - destruct a as [[]|]; simpl; done.
  - intros [= -> _]. by exists h, cls, w.
Qed.

End Cache.

Section Session.
Context `{L : Library}.

(** ** What a request does to the state *)

(** One request: what is cached stays cached, the cache keeps holding
    models only, nothing is printed and the loader is called once at
    most. *)
Lemma handle_request_effect (request_data : string) (st : state) :
  let st' := (handle_request request_data st).2 in
  (∀ k v, dict_lookup k (_model_cache st) = Some v →
          dict_lookup k (_model_cache st') = Some v) ∧
  (cache_of_models (_model_cache st) → cache_of_models (_model_cache st')).
Proof.
  destruct (handle_request_early request_data st)
    as [(msg & -> & _)|(d & text & model_name & Hparse & Htext & Hmodel)];
    [done|].
  rewrite (handle_request_fields _ _ _ _ _ Hparse Htext Hmodel).
  pose proof (λ k v, load_model_keeps model_name k v st) as Hkeeps.
  pose proof (load_model_keeps_models model_name st) as Hmodels.
  destruct (load_model model_name st) as [[model|e] st1]; simpl in *;
    [|by eauto].
  destruct (is_None model); simpl; [by eauto|].
  destruct (generate_embedding_returns model text st1)
    as (embedding & st2 & -> & _ & Hcache & _). simpl.
  destruct (is_None embedding); simpl; rewrite Hcache; by eauto.
Qed.

Lemma distinct_messages (name detail : string) :
  "Failed to load model: " +:+ name ≠ "Invalid JSON input: " +:+ detail
  ∧ "Failed to load model: " +:+ name ≠ "Missing 'text' field in request"
  ∧ "Failed to load model: " +:+ name ≠ "Missing 'model' field in request"
  ∧ "Failed to load model: " +:+ name ≠ "Unexpected error: " +:+ detail
  ∧ "Failed to load model: " +:+ name ≠ "Failed to generate embedding".
Proof. split_and!; rewrite ?append_String; discriminate. Qed.

Lemma Ok_inj {A} (a b : A) : Ok a = Ok b → a = b.
Proof. by intros [= ->]. Qed.

Lemma error_response_inj (msg msg' : string) :
  error_response msg = error_response msg' → msg = msg'.
Proof.
  unfold error_response. intros Heq.
  apply (f_equal (λ d : gmap string value, d !! "error")) in Heq.
  rewrite !lookup_singleton_eq in Heq. congruence.
Qed.

(** X7. With models only in the cache, as it is from the start, no
    request is ever answered with the error [Failed to load model]: the
    branch of [handle_request] that reports a failed load is never
    taken, whatever the loader does. *)
Theorem load_error_is_never_reported
    (request_data model_name : string) (st : state) :
  cache_of_models (_model_cache st) →
  (handle_request request_data st).1 ≠
    Ok {[ "error" := Str ("Failed to load model: " +:+ model_name) ]}.
Proof.
  intros Hinv.
  destruct (handle_request_early request_data st)
    as [(msg & -> & Hmsg)|(d & text & name & Hparse & Htext & Hmodel)].
  - simpl. intros Heq%Ok_inj%error_response_inj.
    destruct (distinct_messages model_name "") as (_ & H2 & H3 & _).
    destruct Hmsg as [[detail ->]|[->|[->|[detail ->]]]]; try done;
      by destruct (distinct_messages model_name detail) as (? & _ & _ & ? & _).
  - rewrite (handle_request_fields _ _ _ _ _ Hparse Htext Hmodel).
    destruct (load_model_never_None name st Hinv) as (model & Hload & Hsome).
    destruct (load_model name st) as [r st1]. simpl in Hload. subst r.
    rewrite Hsome.
    destruct (generate_embedding_returns model text st1)
      as (embedding & st2 & -> & _). simpl.
    destruct (is_None embedding); simpl; intros Heq%Ok_inj.
    + apply error_response_inj in Heq.
      by destruct (distinct_messages model_name "") as (_ & _ & _ & _ & ?).
    + by apply embedding_is_no_error in Heq.
Qed.

(** X8. A field counts as present by its key, not by its value: a
    request that holds both keys, whatever their values (null, a number,
    an empty string), is never answered with a missing-field error. *)
Theorem present_fields_are_not_missing
    (request_data : string) (d : gmap string json) (text model_name : json)
    (st : state) :
  json_loads request_data = Ok (JDict d) →
  d !! "text" = Some text →
  d !! "model" = Some model_name →
  (handle_request request_data st).1 ≠
    Ok {[ "error" := Str "Missing 'text' field in request" ]}
  ∧ (handle_request request_data st).1 ≠
    Ok {[ "error" := Str "Missing 'model' field in request" ]}.
Proof.
  intros Hparse Htext Hmodel.
  rewrite (handle_request_fields _ _ _ _ _ Hparse Htext Hmodel).
  destruct (load_model model_name st) as [[model|e] st1]; simpl.
  2: { split; intros Heq%Ok_inj%error_response_inj; revert Heq;
         rewrite ?append_String; discriminate. }
  destruct (is_None model); simpl.
  { split; intros Heq%Ok_inj%error_response_inj; revert Heq;
      rewrite ?append_String; discriminate. }
  destruct (generate_embedding_returns model text st1)
    as (embedding & st2 & -> & _). simpl.
  destruct (is_None embedding); simpl;
    split; intros Heq%Ok_inj;
    (by apply embedding_is_no_error in Heq)
    || (apply error_response_inj in Heq; discriminate).
Qed.

End Session.

Section Loop.
Context `{L : Library}.

(** ** The whole session *)

(** [follows st st' n]: the state [st'] comes after [st] with [n] lines
    handled in between.  What was cached is still cached, the cache
    still holds models only if it did, [n] lines were printed and the
    loader was called [n] times at most. *)
Definition follows (st st' : state) (n : nat) : Prop :=
  (∀ k v, dict_lookup k (_model_cache st) = Some v →
          dict_lookup k (_model_cache st') = Some v) ∧
  (cache_of_models (_model_cache st) → cache_of_models (_model_cache st')) ∧
  (∃ outs, stdout st' = (stdout st ++ outs)%list ∧ List.length outs = n) ∧
  (List.length (load_calls st') ≤ List.length (load_calls st) + n)%nat.

Lemma follows_refl (st : state) : follows st st 0.
Proof.
  unfold follows. split_and!; [done..| |lia]. exists []. by rewrite app_nil_r.
Qed.

Lemma follows_trans (st1 st2 st3 : state) (n m : nat) :
  follows st1 st2 n → follows st2 st3 m → follows st1 st3 (n + m).
Proof.
  intros (Hk1 & Hm1 & (o1 & Ho1 & Hl1) & Hc1) (Hk2 & Hm2 & (o2 & Ho2 & Hl2) & Hc2).
  unfold follows. split_and!; [by eauto|by eauto| |lia].
  exists (o1 ++ o2)%list. rewrite Ho2, Ho1, length_app, app_assoc. by subst.
Qed.

(** One turn of the loop: a blank line and [QUIT] change nothing; any
    other line is handled, and one line is printed. *)
Lemma loop_body_follows (line : string) (st : state) :
  (strip line = "" ∧ loop_body line st = (Ok Continue, st))
  ∨ (strip line = "QUIT" ∧ loop_body line st = (Ok Break, st))
  ∨ (strip line ≠ "" ∧ strip line ≠ "QUIT" ∧
     ∃ st', loop_body line st = (Ok Continue, st') ∧ follows st st' 1).
Proof.
  destruct (decide (strip line = "")) as [Hblank|Hblank].
  { left. split; [done|]. unfold loop_body. by rewrite Hblank. }
  destruct (decide (strip line = "QUIT")) as [Hquit|Hquit].
  { right. left. split; [done|]. unfold loop_body. by rewrite Hquit. }
  right. right. split_and!; [done..|].
  destruct (loop_body_request line st Hblank Hquit)
    as (response & st1 & out & Hrequest & _ & ->).
  eexists. split; [done|].
  pose proof (handle_request_effect (strip line) st) as [Hkeeps Hmodels].
  pose proof (handle_request_calls (strip line) st) as Hcalls.
  rewrite Hrequest in Hkeeps, Hmodels, Hcalls. simpl in *.
  unfold follows. simpl. split_and!; [done..| |lia]. by exists [out].
Qed.

(** The loop ends without an exception on every input; the lines it
    handled are those of [handled]. *)
Lemma for_lines_follows (stdin : list string) (st : state) :
  ∃ st', for_lines stdin st = (Ok (), st') ∧
         follows st st' (List.length (handled stdin)).
Proof.
  revert st. induction stdin as [|line rest IH]; intros st.
  { exists st. split; [done|apply follows_refl]. }
  rewrite for_lines_cons. simpl handled.
  destruct (loop_body_follows line st)
    as [[Hblank ->]|[[Hquit ->]|(Hblank & Hquit & st1 & -> & Hstep)]].
  - rewrite Hblank. simpl. apply IH.
  - rewrite Hquit. simpl. exists st. split; [done|apply follows_refl].
  - rewrite !bool_decide_false by done.
    destruct (IH st1) as (st' & -> & Hrest). exists st'. split; [done|].
    apply (follows_trans _ _ _ 1 _ Hstep Hrest).
Qed.

(** [main] prints the ready line, runs the loop and ends. *)
Lemma main_follows (stdin : list string) (st : state) :
  ∃ ready st',
    json_dumps {[ "status" := Str "ready" ]} = Ok ready ∧
    main stdin st = (Ok (), st') ∧
    follows (State (_model_cache st) (outside st) (load_calls st)
                   (stdout st ++ [ready])) st'
            (List.length (handled stdin)).
Proof.
  assert (is_Ok (json_dumps {[ "status" := Str "ready" ]}) = true) as Hready
    by (apply json_dumps_serializable; by apply map_Forall_singleton).
  destruct (json_dumps {[ "status" := Str "ready" ]}) as [ready|] eqn:Hdumps;
    [|done].
  exists ready.
  destruct (for_lines_follows stdin
              (State (_model_cache st) (outside st) (load_calls st)
                     (stdout st ++ [ready]))) as (st' & Hloop & Hfollows).
  exists st'. split_and!; [done| |done].
  unfold main, try_finally, print_json, print. run.
  rewrite Hdumps. simpl. by rewrite Hloop.
Qed.

End Loop.

Section SessionProperties.
Context `{L : Library}.


(** X10. What a session prints: the ready line first, then exactly one
    line for each line of the input that is handled, that is, for each
    line before the first [QUIT] that is not blank once stripped.
    Nothing is printed for the other lines. *)
Theorem one_line_per_request (stdin : list string) (st : state) :
  ∃ ready outs,
    json_dumps {[ "status" := Str "ready" ]} = Ok ready ∧
    stdout (main stdin st).2 = (stdout st ++ ready :: outs)%list ∧
    List.length outs = List.length (handled stdin).
Proof.
  destruct (main_follows stdin st)
    as (ready & st' & Hready & -> & _ & _ & (outs & Hout & Hlen) & _).
  exists ready, outs. split_and!; [done| |done].
  simpl in *. by rewrite Hout, <- app_assoc.
Qed.

(** X11. Nothing is ever evicted from the cache or replaced in it: a
    model that is cached under an identifier before a session is cached
    under it, unchanged, after the session, whatever was requested. *)
Theorem session_keeps_cache
    (stdin : list string) (k : hkey) (v : value) (st : state) :
  dict_lookup k (_model_cache st) = Some v →
  dict_lookup k (_model_cache (main stdin st).2) = Some v.
Proof.
  destruct (main_follows stdin st) as (ready & st' & _ & -> & Hkeeps & _).
  apply Hkeeps.
Qed.

(** X12. The cache holds loaded models only, and a session keeps it so:
    no failure pair and no [None] is ever stored in it. *)
Theorem session_keeps_models (stdin : list string) (st : state) :
  cache_of_models (_model_cache st) →
  cache_of_models (_model_cache (main stdin st).2).
Proof.
  destruct (main_follows stdin st) as (ready & st' & _ & -> & _ & Hmodels & _).
  apply Hmodels.
Qed.

(** X13. A session calls the loader at most once for each line that it
    handles; blank lines, [QUIT] and what follows it load nothing. *)
Theorem session_load_bound (stdin : list string) (st : state) :
  (List.length (load_calls (main stdin st).2)
   ≤ List.length (load_calls st) + List.length (handled stdin))%nat.
Proof.
  destruct (main_follows stdin st) as (ready & st' & _ & -> & _ & _ & _ & Hcalls).
  apply Hcalls.
Qed.

Lemma for_lines_handled (stdin : list string) (st : state) :
  for_lines stdin st = for_lines (handled stdin) st.
Proof.
  revert st. induction stdin as [|line rest IH]; intros st; [done|].
  rewrite for_lines_cons. simpl handled.
  destruct (loop_body_follows line st)
    as [[Hblank Hbody]|[[Hquit Hbody]|(Hblank & Hquit & st1 & Hbody & _)]];
    rewrite Hbody.
  - rewrite Hblank. simpl. apply IH.
  - rewrite Hquit. done.
  - rewrite !bool_decide_false by done.
    rewrite for_lines_cons, <- loop_body_strip, Hbody. apply IH.
Qed.

(** X14. Only the handled lines matter: a session on an input is the
    session on its handled lines.  Blank lines, white space around a
    line, [QUIT] and every line after it make no difference to what is
    printed, cached and loaded. *)
Theorem session_of_handled_lines (stdin : list string) (st : state) :
  main stdin st = main (handled stdin) st.
Proof.
  unfold main, try_finally, try_except. unfold mbind, M_bind.
  destruct (print_json {[ "status" := Str "ready" ]} st) as [[[]|e] st1];
    [|done].
  by rewrite for_lines_handled.
Qed.

(** X15. Requests are handled one after the other, each in the state
    the one before left: without a [QUIT] among the first lines, the loop
    on an input in two parts is the loop on the second part, started in
    the state the first part ends in.  With a [QUIT] among them, the
    second part is not read. *)
Theorem loop_in_two_parts (first second : list string) (st : state) :
  (Forall (λ line, strip line ≠ "QUIT") first →
   for_lines (first ++ second) st = for_lines second (for_lines first st).2)
  ∧ (Exists (λ line, strip line = "QUIT") first →
     for_lines (first ++ second) st = for_lines first st).
Proof.
  split.
  - intros Hnoquit. revert st.
    induction Hnoquit as [|line rest Hline _ IH]; intros st; [done|].
    rewrite <- app_comm_cons, !for_lines_cons.
    destruct (loop_body_follows line st)
      as [[_ ->]|[[Hquit _]|(_ & _ & st1 & -> & _)]]; [apply IH|done|apply IH].
  - intros Hquit. revert st.
    induction Hquit as [line rest Hline|line rest _ IH]; intros st;
      rewrite <- app_comm_cons, !for_lines_cons.
    + destruct (loop_body_follows line st)
        as [[Hblank _]|[[_ ->]|(_ & Hother & _)]]; [|done..].
      rewrite Hline in Hblank. done.
    + destruct (loop_body line st) as [[[]|e] st1]; [apply IH|done..].
Qed.

End SessionProperties.

Section Misses.
Context `{L : Library}.

(** X16. A miss calls the loader exactly once, with the identifier asked
    for, whether the load succeeds or not, and whatever
    [torch.set_num_threads] does afterwards. *)
Theorem miss_loads_once (model_name : json) (k : hkey) (st : state) :
  py_hash model_name = Ok k →
  dict_lookup k (_model_cache st) = None →
  load_calls (load_model model_name st).2 = (load_calls st ++ [model_name])%list.
Proof.
  intros Hk Hmiss.
  unfold load_model, cache_contains, cache_setitem, call_SentenceTransformer,
    call_world. run.
  rewrite Hk. simpl. rewrite Hmiss. simpl.
  destruct (SentenceTransformer model_name (outside st)) as [[h|e] w]; simpl;
    [|done].
  destruct torch_set_num_threads as [set_num_threads|]; simpl; [|done].
  by destruct (set_num_threads 1%Z w) as [[[]|e] w'].
Qed.

Lemma float32_list_unchanged (a : ndarray) :
  all_float32 (ndarray_tolist a) = true →
  ndarray_tolist (astype_float32 a) = ndarray_tolist a.
Proof.
  induction a as [x|l IH] using ndarray_nested_ind; simpl.
  - destruct x as [b|z|x]; simpl; try done.
    unfold is_float32. intros Hx%bool_decide_eq_true. by rewrite Hx.
  - intros Hall. f_equal.
    induction IH as [|a l Ha _ IHl]; simpl in *; [done|].
    apply andb_true_iff in Hall as [Hhead Htail].
    by rewrite Ha, IHl.
Qed.

(** X17. A model that returns a float32 array, as sentence-transformers
    does, gets its output back as it is: when every item of the array is
    a float of 32-bit precision, the list that [generate_embedding]
    returns holds the very items of the array; the conversion changes no
    value. *)
Theorem float32_output_is_unchanged
    (h : handle) (text : json) (a : ndarray) (w : world) (st : state) :
  encode h text (outside st) = (Ok (Ndarray a), w) →
  all_float32 (ndarray_tolist a) = true →
  (generate_embedding (Model h) text st).1 = Ok (Plain (ndarray_tolist a)).
Proof.
  intros Hencode Hfloat32.
  rewrite (generate_embedding_ndarray _ _ _ _ _ Hencode). simpl.
  by rewrite float32_list_unchanged.
Qed.

End Misses.

(** ** A second test double

    It parses a few lines that are JSON but no request, knows a model
    whose output lists to [None] and one that returns a float32 array,
    and its [torch.set_num_threads] raises.  Everything else is as in
    [Stub]. *)

Module Harsh.
Import Stub.

(** [["text", "model"]] *)
Definition array_line : string :=
  "[" +:+ dq +:+ "text" +:+ dq +:+ ", " +:+ dq +:+ "model" +:+ dq +:+ "]".

(** [{"text": "hello", "model": ["a"]}] *)
Definition list_model_line : string :=
  "{" +:+ field "text" "hello" +:+ ", " +:+ dq +:+ "model" +:+ dq +:+ ": ["
      +:+ dq +:+ "a" +:+ dq +:+ "]}".

(** [{"text": null, "model": null}] *)
Definition null_fields_line : string :=
  "{" +:+ dq +:+ "text" +:+ dq +:+ ": null, " +:+ dq +:+ "model" +:+ dq
      +:+ ": null}".

Definition loads (s : string) : result json :=
  if bool_decide (s = "null") then Ok JNone
  else if bool_decide (s = array_line)
  then Ok (JList [JStr "text"; JStr "model"])
  else if bool_decide (s = list_model_line)
  then Ok (JDict {[ "text" := JStr "hello"; "model" := JList [JStr "a"] ]})
  else if bool_decide (s = null_fields_line)
  then Ok (JDict {[ "text" := JNone; "model" := JNone ]})
  else Stub.loads s.

Definition load (model_name : json) (w : unit) : result handle * unit :=
  match model_name with
  | JStr "none-model" => (Ok 4%N, w)
  | JStr "float32-model" => (Ok 5%N, w)
  | _ => Stub.load model_name w
  end.

(** 0.5 and 0.25: binary32 numbers. *)
Definition f0_5 : spec_float := S754_finite false 4503599627370496 (-53).
Definition f0_25 : spec_float := S754_finite false 4503599627370496 (-54).

Definition infer (h : handle) (text : json) (w : unit) : result value * unit :=
  match h with
  | 4%N => (Ok (Object "Odd" (Some JNone)), w)
  | 5%N => (Ok (Ndarray (NdAxis [NdItem (NpFloat f0_5); NdItem (NpFloat f0_25)])), w)
  | _ => Stub.infer h text w
  end.

Definition set_num_threads (n : Z) (w : unit) : result unit * unit :=
  (Raise (Exn (OtherException "RuntimeError") "cannot set the threads"), w).

#[refine] Instance lib : Library := {|
  world := unit;
  json_loads := loads;
  json_dumps := dumps;
  py_str := λ _, "?";
  SentenceTransformer := load;
  torch_set_num_threads := Some set_num_threads;
  encode := infer
|}.
Proof.
  intros d Hd. unfold dumps. by rewrite decide_True.
Defined.

Definition st0 : state := State (L:=lib) ∅ () [] [].

End Harsh.

Section FurtherWitnesses.

Lemma unparsed_request_response_witness :
  handle_request "not json" Stub.st0 =
    (Ok {[ "error" :=
             Str "Invalid JSON input: Expecting value: line 1 column 1 (char 0)" ]},
     Stub.st0).
Proof.
  apply (unparsed_request_response (L:=Stub.lib) "not json"
           (Exn JSONDecodeError "Expecting value: line 1 column 1 (char 0)")
           Stub.st0).
  reflexivity.
Defined.

Lemma non_object_request_is_refused_witness :
  (∃ msg, handle_request "null" Harsh.st0 = (Ok {[ "error" := Str msg ]}, Harsh.st0))
  ∧ (∃ msg, handle_request Harsh.array_line Harsh.st0 =
              (Ok {[ "error" := Str msg ]}, Harsh.st0)).
Proof.
  split.
  - apply (non_object_request_is_refused (L:=Harsh.lib) "null" JNone Harsh.st0);
      [reflexivity|done].
  - apply (non_object_request_is_refused (L:=Harsh.lib) Harsh.array_line
             (JList [JStr "text"; JStr "model"]) Harsh.st0);
      [reflexivity|done].
Defined.

Lemma unhashable_model_request_witness :
  handle_request Harsh.list_model_line Harsh.st0 =
    (Ok {[ "embedding" :=
             Tuple [None_; Str "'tuple' object has no attribute 'encode'"] ]},
     Harsh.st0).
Proof.
  apply (unhashable_model_request (L:=Harsh.lib) Harsh.list_model_line
           {[ "text" := JStr "hello"; "model" := JList [JStr "a"] ]}
           (JStr "hello") (JList [JStr "a"]) Harsh.st0);
    [reflexivity..|]. left. by eexists.
Defined.

Lemma set_num_threads_failure_drops_model_witness :
  load_model (JStr "test-model") Harsh.st0 =
    (Ok (Tuple [None_; Str "cannot set the threads"]),
     State (L:=Harsh.lib) ∅ () [JStr "test-model"] []).
Proof.
  apply (set_num_threads_failure_drops_model (L:=Harsh.lib) (JStr "test-model")
           (KStr "test-model") 1%N
           (Exn (OtherException "RuntimeError") "cannot set the threads")
           () () Harsh.set_num_threads Harsh.st0); reflexivity.
Defined.

Lemma returned_model_is_cached_witness :
  dict_lookup (KStr "test-model")
    (_model_cache (load_model (JStr "test-model") Stub.st0).2)
  = Some (Model 1%N).
Proof.
  apply (returned_model_is_cached (L:=Stub.lib) (JStr "test-model")
           (KStr "test-model") 1%N Stub.st0); reflexivity.
Defined.

Lemma generate_embedding_None_witness :
  ∃ h cls w, Model 4%N = Model h ∧
             encode (Library:=Harsh.lib) h (JStr "hello") (outside Harsh.st0) =
               (Ok (Object cls (Some JNone)), w).
Proof.
  apply (generate_embedding_None (L:=Harsh.lib) (Model 4%N) (JStr "hello")
           Harsh.st0 Harsh.st0).
  reflexivity.
Defined.

Lemma load_error_is_never_reported_witness :
  (handle_request (Stub.request_line "hello" "no-such-model") Stub.st0).1 ≠
    Ok {[ "error" := Str ("Failed to load model: " +:+ "no-such-model") ]}.
Proof.
  apply (load_error_is_never_reported (L:=Stub.lib)
           (Stub.request_line "hello" "no-such-model") "no-such-model" Stub.st0).
  apply map_Forall_empty.
Defined.

Lemma present_fields_are_not_missing_witness :
  (handle_request Harsh.null_fields_line Harsh.st0).1 ≠
    Ok {[ "error" := Str "Missing 'text' field in request" ]}
  ∧ (handle_request Harsh.null_fields_line Harsh.st0).1 ≠
    Ok {[ "error" := Str "Missing 'model' field in request" ]}.
Proof.
  apply (present_fields_are_not_missing (L:=Harsh.lib) Harsh.null_fields_line
           {[ "text" := JNone; "model" := JNone ]} JNone JNone Harsh.st0);
    reflexivity.
Defined.

Lemma session_keeps_cache_witness :
  dict_lookup (KStr "test-model")
    (_model_cache
       (main [Stub.request_line "hello" "broken-model"; "QUIT"]
          (State (L:=Stub.lib) {[ KStr "test-model" := Model 1%N ]} () [] [])).2)
  = Some (Model 1%N).
Proof.
  apply (session_keeps_cache (L:=Stub.lib)
           [Stub.request_line "hello" "broken-model"; "QUIT"]
           (KStr "test-model") (Model 1%N)
           (State (L:=Stub.lib) {[ KStr "test-model" := Model 1%N ]} () [] [])).
  reflexivity.
Defined.

Lemma session_keeps_models_witness :
  cache_of_models
    (_model_cache
       (main [Stub.request_line "hello" "test-model";
              Stub.request_line "hello" "no-such-model"] Stub.st0).2).
Proof.
  apply (session_keeps_models (L:=Stub.lib)
           [Stub.request_line "hello" "test-model";
            Stub.request_line "hello" "no-such-model"] Stub.st0).
  apply map_Forall_empty.
Defined.

Lemma loop_in_two_parts_witness :
  for_lines (["{}"; " "] ++ ["{}"]) Stub.st0 =
    for_lines ["{}"] (for_lines ["{}"; " "] Stub.st0).2
  ∧ for_lines (["{}"; " QUIT "] ++ ["{}"]) Stub.st0 =
    for_lines ["{}"; " QUIT "] Stub.st0.
Proof.
  split.
  - apply (loop_in_two_parts (L:=Stub.lib) ["{}"; " "] ["{}"] Stub.st0).
    repeat constructor; by vm_compute.
  - apply (loop_in_two_parts (L:=Stub.lib) ["{}"; " QUIT "] ["{}"] Stub.st0).
    apply Exists_cons_tl, Exists_cons_hd. reflexivity.
Defined.

Lemma miss_loads_once_witness :
  load_calls (load_model (JStr "no-such-model") Stub.st0).2 =
    [JStr "no-such-model"].
Proof.
  apply (miss_loads_once (L:=Stub.lib) (JStr "no-such-model")
           (KStr "no-such-model") Stub.st0); reflexivity.
Defined.

Lemma float32_output_is_unchanged_witness :
  (generate_embedding (Model 5%N) (JStr "hello") Harsh.st0).1 =
    Ok (Plain (JList [JFloat Harsh.f0_5; JFloat Harsh.f0_25])).
Proof.
  apply (float32_output_is_unchanged (L:=Harsh.lib) 5%N (JStr "hello")
           (NdAxis [NdItem (NpFloat Harsh.f0_5); NdItem (NpFloat Harsh.f0_25)])
           () Harsh.st0); [reflexivity|by vm_compute].
Defined.

End FurtherWitnesses.
